(** * The banking ledger of BankSystemProject.py

    A shallow embedding of the data model classes ([Account] with its two
    variants, [Customer]) and of the coordinator [Bank], followed by the
    properties of the ledger engine.

    Conventions of the embedding.
    - A Python [float] is an IEEE 754 binary64 number: Rocq's primitive
      [float], with the same rounding (to nearest, ties to even), the same
      infinities and NaN.  A comparison with a NaN is [false], as in Python.
    - A Python [str] is a [string], one [ascii] per character (the code
      points below 256).
    - A [dict] keyed by strings is a [gmap string _]; the objects stored in it
      are mutated in place by the source, which the embedding renders as a
      lookup followed by an [insert] under the same key.
    - The three JSON files are a record [Files]; every operation of [Bank]
      threads the pair of the in-memory bank and the files.
    - [uuid.uuid4] and [datetime.datetime.now] are inputs of the operation
      that calls them. *)

From Stdlib Require Import ZArith Floats Bool Ascii String List Lia.
From stdpp Require Import gmap strings list fin_maps.
Import ListNotations.

Set Warnings "-inexact-float".

Local Open Scope string_scope.
Local Open Scope list_scope.

(** ** Floating-point amounts *)

Module Amount.

(** [amount <= 0], [a < b], [a >= 0] and [a > b] of the source. *)
Definition le0 (x : float) : bool := PrimFloat.leb x 0%float.

Definition lt (x y : float) : bool := PrimFloat.ltb x y.

Definition ge0 (x : float) : bool := PrimFloat.leb 0%float x.

Definition gt (x y : float) : bool := PrimFloat.ltb y x.

(** [-1 * x]: the integer [-1] is converted to [-1.0] before the product. *)
Definition neg1_mul (x : float) : float := PrimFloat.mul (-1)%float x.

End Amount.

(** ** Data model classes *)

(** [SavingsAccount] and [CurrentAccount], the two concrete subclasses of the
    abstract [Account]; the first three fields are those of the base class. *)
Inductive Account : Type :=
| SavingsAccount (account_number account_holder_id : string)
                 (balance interest_rate : float)
| CurrentAccount (account_number account_holder_id : string)
                 (balance overdraft_limit : float).

Definition account_number (a : Account) : string :=
  match a with
  | SavingsAccount n _ _ _ | CurrentAccount n _ _ _ => n
  end.

Definition account_holder_id (a : Account) : string :=
  match a with
  | SavingsAccount _ h _ _ | CurrentAccount _ h _ _ => h
  end.

Definition balance (a : Account) : float :=
  match a with
  | SavingsAccount _ _ b _ | CurrentAccount _ _ b _ => b
  end.

Definition set_balance (b : float) (a : Account) : Account :=
  match a with
  | SavingsAccount n h _ r => SavingsAccount n h b r
  | CurrentAccount n h _ l => CurrentAccount n h b l
  end.

Definition is_savings (a : Account) : bool :=
  match a with
  | SavingsAccount _ _ _ _ => true
  | CurrentAccount _ _ _ _ => false
  end.

(** [SavingsAccount.__init__]:
    [self._interest_rate = interest_rate if interest_rate >= 0 else 0.01]. *)
Definition default_interest_rate : float := 0.01%float.

Definition SavingsAccount_init (number holder : string)
    (initial_balance interest_rate : float) : Account :=
  SavingsAccount number holder initial_balance
    (if Amount.ge0 interest_rate then interest_rate else default_interest_rate).

(** [CurrentAccount.__init__]:
    [self._overdraft_limit = overdraft_limit if overdraft_limit >= 0 else 0.0]. *)
Definition default_overdraft_limit : float := 0%float.

Definition CurrentAccount_init (number holder : string)
    (initial_balance overdraft_limit : float) : Account :=
  CurrentAccount number holder initial_balance
    (if Amount.ge0 overdraft_limit then overdraft_limit
     else default_overdraft_limit).

(** The methods of the account classes.  A method that mutates the object
    returns its result together with the object after the call. *)
Module Account.

(** [deposit], the same body in both subclasses. *)
Definition deposit (amount : float) (a : Account) : bool * Account :=
  match a with
  | SavingsAccount _ _ b _ =>
      if Amount.le0 amount then (false, a)
      else (true, set_balance (b + amount)%float a)
  | CurrentAccount _ _ b _ =>
      if Amount.le0 amount then (false, a)
      else (true, set_balance (b + amount)%float a)
  end.

(** [withdraw]:
    Savings refuses [amount <= 0 or amount > self._balance];
    Current refuses
    [amount <= 0 or (self._balance - amount) < (-1 * self._overdraft_limit)]. *)
Definition withdraw (amount : float) (a : Account) : bool * Account :=
  match a with
  | SavingsAccount _ _ b _ =>
      if Amount.le0 amount || Amount.gt amount b then (false, a)
      else (true, set_balance (b - amount)%float a)
  | CurrentAccount _ _ b l =>
      if Amount.le0 amount || Amount.lt (b - amount)%float (Amount.neg1_mul l)
      then (false, a)
      else (true, set_balance (b - amount)%float a)
  end.

(** [SavingsAccount.apply_interest]:
    [interest = self._balance * self._interest_rate; self._balance += interest].
    The method exists on [SavingsAccount] only and [Bank.apply_all_interest]
    calls it behind an [isinstance] test, so the second branch is never
    taken. *)
Definition apply_interest (a : Account) : Account :=
  match a with
  | SavingsAccount n h b r => SavingsAccount n h (b + b * r)%float r
  | CurrentAccount _ _ _ _ => a
  end.

End Account.

(** [Customer]: identity, address and the list of the numbers of the
    accounts it owns, in creation order. *)
Record Customer : Type := mkCustomer {
  customer_id : string;
  name : string;
  address : string;
  account_numbers : list string
}.

(** [Customer.__init__] starts with [self._account_numbers = []]. *)
Definition Customer_init (id nm addr : string) : Customer :=
  mkCustomer id nm addr [].

(** [add_account_number]: appended unless already in the list. *)
Definition add_account_number (n : string) (c : Customer) : Customer :=
  if bool_decide (n ∈ account_numbers c) then c
  else mkCustomer (customer_id c) (name c) (address c) (account_numbers c ++ [n]).

(** [list.remove]: the first occurrence is removed. *)
Fixpoint list_remove (n : string) (l : list string) : list string :=
  match l with
  | [] => []
  | x :: r => if bool_decide (x = n) then r else x :: list_remove n r
  end.

(** [remove_account_number]: removed if in the list. *)
Definition remove_account_number (n : string) (c : Customer) : Customer :=
  if bool_decide (n ∈ account_numbers c)
  then mkCustomer (customer_id c) (name c) (address c)
         (list_remove n (account_numbers c))
  else c.

(** ** The activity log and the JSON files *)

(** The dictionaries appended to [Bank._transaction_history], by their
    ["type"] field. *)
Inductive Transaction : Type :=
| Tx_deposit (account : string) (amount : float) (timestamp : string)
| Tx_withdraw (account : string) (amount : float) (timestamp : string)
| Tx_transfer (from_account to_account : string) (amount : float)
              (timestamp : string)
| Tx_apply_interest (timestamp : string).

(** The dictionary of a customer in [customers.json]; [_load_data] reads
    ["account_numbers"] with [.get(..., [])]. *)
Record CustomerDict : Type := mkCustomerDict {
  cd_customer_id : string;
  cd_name : string;
  cd_address : string;
  cd_account_numbers : option (list string)
}.

(** The dictionary of an account in [accounts.json]; [_load_data] reads every
    field but the number and the holder with [.get]. *)
Record AccountDict : Type := mkAccountDict {
  ad_account_number : string;
  ad_balance : option float;
  ad_account_holder_id : string;
  ad_type : option string;
  ad_interest_rate : option float;
  ad_overdraft_limit : option float
}.

(** The three files; [None] is a file that does not exist. *)
Record Files : Type := mkFiles {
  customers_json : option (list CustomerDict);
  accounts_json : option (list AccountDict);
  transactions_json : option (list Transaction)
}.

Definition no_files : Files := mkFiles None None None.

Definition Customer_to_dict (c : Customer) : CustomerDict :=
  mkCustomerDict (customer_id c) (name c) (address c)
    (Some (account_numbers c)).

Definition Account_to_dict (a : Account) : AccountDict :=
  match a with
  | SavingsAccount n h b r =>
      mkAccountDict n (Some b) h (Some "savings") (Some r) None
  | CurrentAccount n h b l =>
      mkAccountDict n (Some b) h (Some "current") None (Some l)
  end.

(** ** The coordinator *)

Record Bank : Type := mkBank {
  _customers : gmap string Customer;
  _accounts : gmap string Account;
  _transaction_history : list Transaction
}.

(** The bank object together with the files it reads and writes. *)
Record State : Type := mkState {
  bank : Bank;
  files : Files
}.

(** [str.isdigit] on one character: the decimal digits and, below code point
    256, the superscripts two, three and one. *)
Definition isdigit_char (c : ascii) : bool :=
  let n := nat_of_ascii c in
  ((48 <=? n)%nat && (n <=? 57)%nat)
  || (n =? 178)%nat || (n =? 179)%nat || (n =? 185)%nat.

(** [str.isdigit]: every character is a digit and there is at least one. *)
Definition isdigit (s : string) : bool :=
  match s with
  | EmptyString => false
  | _ => forallb isdigit_char (list_ascii_of_string s)
  end.

Module Bank.

(** [_save_data]: the three files are rewritten from the bank in memory. *)
Definition _save_data (b : Bank) : Files :=
  mkFiles
    (Some (Customer_to_dict <$> (map_to_list (_customers b)).*2))
    (Some (Account_to_dict <$> (map_to_list (_accounts b)).*2))
    (Some (_transaction_history b)).

(** One customer of [customers.json]: the numbers are added one by one with
    [add_account_number]. *)
Definition load_customer (cdata : CustomerDict) : Customer :=
  foldl (fun c n => add_account_number n c)
    (Customer_init (cd_customer_id cdata) (cd_name cdata) (cd_address cdata))
    (default [] (cd_account_numbers cdata)).

(** One account of [accounts.json]; a dictionary of another type is skipped. *)
Definition load_account (adata : AccountDict) : option Account :=
  match ad_type adata with
  | Some t =>
      if bool_decide (t = "savings") then
        Some (SavingsAccount_init (ad_account_number adata)
                (ad_account_holder_id adata)
                (default 0%float (ad_balance adata))
                (default 0.01%float (ad_interest_rate adata)))
      else if bool_decide (t = "current") then
        Some (CurrentAccount_init (ad_account_number adata)
                (ad_account_holder_id adata)
                (default 0%float (ad_balance adata))
                (default 0%float (ad_overdraft_limit adata)))
      else None
  | None => None
  end.

Definition load_customers (f : Files) : gmap string Customer :=
  match customers_json f with
  | Some customers_data =>
      foldl (fun m cdata =>
               let c := load_customer cdata in <[customer_id c := c]> m)
        ∅ customers_data
  | None => ∅
  end.

Definition load_accounts (f : Files) : gmap string Account :=
  match accounts_json f with
  | Some accounts_data =>
      foldl (fun m adata =>
               match load_account adata with
               | Some acc => <[account_number acc := acc]> m
               | None => m
               end)
        ∅ accounts_data
  | None => ∅
  end.

(** The last loop of [_load_data]: the numbers of accounts that were not
    loaded are dropped from every customer. *)
Definition prune (accounts : gmap string Account) (c : Customer) : Customer :=
  mkCustomer (customer_id c) (name c) (address c)
    (filter (fun acc => is_Some (accounts !! acc)) (account_numbers c)).

(** [_load_data] reads [customers.json] and [accounts.json], and no other
    file. *)
Definition _load_data (f : Files) : gmap string Customer * gmap string Account :=
  let accounts := load_accounts f in
  (prune accounts <$> load_customers f, accounts).

(** [Bank.__init__]: [self._load_data()] and then
    [self._transaction_history = []]. *)
Definition init (f : Files) : State :=
  let '(customers, accounts) := _load_data f in
  mkState (mkBank customers accounts []) f.

(** Field updates of the bank object. *)
Definition set_customers (m : gmap string Customer) (b : Bank) : Bank :=
  mkBank m (_accounts b) (_transaction_history b).

Definition set_accounts (m : gmap string Account) (b : Bank) : Bank :=
  mkBank (_customers b) m (_transaction_history b).

Definition append_history (t : Transaction) (b : Bank) : Bank :=
  mkBank (_customers b) (_accounts b) (_transaction_history b ++ [t]).

(** The bank after a mutation, saved: [self._save_data()]. *)
Definition saved (b : Bank) : State := mkState b (_save_data b).

(** The bank after a call that does not save. *)
Definition unsaved (b : Bank) (s : State) : State := mkState b (files s).

(** A call of a method [m] on the account object stored under [k]: the object
    under that key is the object after the call. *)
Definition on_account (k : string) (m : Account -> bool * Account)
    (b : Bank) : bool * Bank :=
  match _accounts b !! k with
  | Some a =>
      let '(r, a') := m a in (r, set_accounts (<[k := a']> (_accounts b)) b)
  | None => (false, b)
  end.

Definition add_customer (customer : Customer) (s : State) : bool * State :=
  let b := bank s in
  if bool_decide (is_Some (_customers b !! customer_id customer)) then (false, s)
  else if negb (String.length (customer_id customer) =? 9)%nat
          || negb (isdigit (customer_id customer)) then (false, s)
  else (true, saved (set_customers
                       (<[customer_id customer := customer]> (_customers b)) b)).

Definition remove_customer (id : string) (s : State) : bool * State :=
  let b := bank s in
  match _customers b !! id with
  | None => (false, s)
  | Some cust =>
      match account_numbers cust with
      | _ :: _ => (false, s)
      | [] => (true, saved (set_customers (delete id (_customers b)) b))
      end
  end.

(** The constructor call of [create_account], by [account_type]; the two
    options are the keyword arguments [interest_rate] and [overdraft_limit],
    read with [kwargs.get] and its default. *)
Definition construct (account_type number id : string) (initial_balance : float)
    (kw_interest_rate kw_overdraft_limit : option float) : option Account :=
  if bool_decide (account_type = "savings") then
    Some (SavingsAccount_init number id initial_balance
            (default 0.01%float kw_interest_rate))
  else if bool_decide (account_type = "current") then
    Some (CurrentAccount_init number id initial_balance
            (default 0%float kw_overdraft_limit))
  else None.

(** [create_account]; [uuid4] is the text [str(uuid.uuid4())], of which the
    first eight characters are the account number. *)
Definition create_account (id account_type : string) (initial_balance : float)
    (kw_interest_rate kw_overdraft_limit : option float) (uuid4 : string)
    (s : State) : option Account * State :=
  let b := bank s in
  match _customers b !! id with
  | None => (None, s)
  | Some customer =>
      let number := substring 0 8 uuid4 in
      match construct account_type number id initial_balance
              kw_interest_rate kw_overdraft_limit with
      | None => (None, s)
      | Some account =>
          let b1 := set_accounts (<[number := account]> (_accounts b)) b in
          let b2 := set_customers
                      (<[id := add_account_number number customer]>
                         (_customers b1)) b1 in
          (Some account, saved b2)
      end
  end.

Definition deposit (number : string) (amount : float) (now : string)
    (s : State) : bool * State :=
  let b := bank s in
  match _accounts b !! number with
  | None => (false, s)
  | Some _ =>
      let '(success, b1) := on_account number (Account.deposit amount) b in
      if success
      then (true, saved (append_history (Tx_deposit number amount now) b1))
      else (false, unsaved b1 s)
  end.

Definition withdraw (number : string) (amount : float) (now : string)
    (s : State) : bool * State :=
  let b := bank s in
  match _accounts b !! number with
  | None => (false, s)
  | Some _ =>
      let '(success, b1) := on_account number (Account.withdraw amount) b in
      if success
      then (true, saved (append_history (Tx_withdraw number amount now) b1))
      else (false, unsaved b1 s)
  end.

(** [transfer_funds].  [from_account] and [to_account] are the objects under
    the two keys, one and the same object when the keys are equal. *)
Definition transfer_funds (from_acc_num to_acc_num : string) (amount : float)
    (now : string) (s : State) : bool * State :=
  let b := bank s in
  match _accounts b !! from_acc_num, _accounts b !! to_acc_num with
  | Some _, Some _ =>
      if Amount.le0 amount then (false, s)
      else
        let '(withdrawn, b1) :=
          on_account from_acc_num (Account.withdraw amount) b in
        if negb withdrawn then (false, unsaved b1 s)
        else
          let '(deposited, b2) :=
            on_account to_acc_num (Account.deposit amount) b1 in
          if negb deposited then
            let '(_, b3) := on_account from_acc_num (Account.deposit amount) b2 in
            (false, unsaved b3 s)
          else
            (true, saved (append_history
                            (Tx_transfer from_acc_num to_acc_num amount now) b2))
  | _, _ => (false, s)
  end.

(** [get_customer_accounts]: the accounts of the customer's list that are in
    the account map, in the order of the list. *)
Definition get_customer_accounts (id : string) (s : State) : list Account :=
  match _customers (bank s) !! id with
  | None => []
  | Some customer =>
      omap (fun acc_num => _accounts (bank s) !! acc_num)
        (account_numbers customer)
  end.

(** [apply_all_interest]: [apply_interest] on every instance of
    [SavingsAccount], one log entry, one save. *)
Definition apply_all_interest (now : string) (s : State) : State :=
  let b := bank s in
  let b1 := set_accounts
              ((fun account => if is_savings account
                               then Account.apply_interest account
                               else account) <$> _accounts b) b in
  saved (append_history (Tx_apply_interest now) b1).

End Bank.

(** ** Vocabulary of the properties *)

Definition balance_of (s : State) (k : string) : option float :=
  balance <$> _accounts (bank s) !! k.

Definition history (s : State) : list Transaction :=
  _transaction_history (bank s).

(** A balance read as sign, mantissa and exponent: two balances with
    different readings are different numbers. *)
Definition balance_bits (o : option float) : option spec_float :=
  Prim2SF <$> o.

(** The state is committed: the files are those [_save_data] writes from the
    bank in memory. *)
Definition committed (s : State) : Prop := files s = Bank._save_data (bank s).

(** The floor of an account: [0] for Savings, [-1 * overdraft_limit] for
    Current, as [withdraw] computes it. *)
Definition floor (a : Account) : float :=
  match a with
  | SavingsAccount _ _ _ _ => 0%float
  | CurrentAccount _ _ _ l => Amount.neg1_mul l
  end.

Definition satisfies_floor (a : Account) : bool :=
  PrimFloat.leb (floor a) (balance a).

Definition below_floor (a : Account) : bool :=
  PrimFloat.ltb (balance a) (floor a).

(** A customer id that [add_customer] accepts: nine characters, all digits. *)
Definition valid_customer_id (id : string) : Prop :=
  String.length id = 9%nat /\ isdigit id = true.

(** Transfer, all or nothing, for the pair [(a, b)]: both balances move by
    the amount and one transfer record is appended, or neither balance moves
    and nothing is appended; a failure leaves the whole state as it was. *)
Definition transfer_applied (a b : string) (amt : float) (now : string)
    (s s' : State) : Prop :=
  balance_of s' a = (fun x => x - amt)%float <$> balance_of s a
  /\ balance_of s' b = (fun x => x + amt)%float <$> balance_of s b
  /\ history s' = history s ++ [Tx_transfer a b amt now].

Definition transfer_void (a b : string) (s s' : State) : Prop :=
  balance_of s' a = balance_of s a
  /\ balance_of s' b = balance_of s b
  /\ history s' = history s.

Definition transfer_atomic (a b : string) (amt : float) (now : string)
    (s : State) : Prop :=
  let '(ok, s') := Bank.transfer_funds a b amt now s in
  (transfer_applied a b amt now s s' \/ transfer_void a b s s')
  /\ (ok = false -> s' = s).

(** The same for distinct accounts only; between an account and itself a
    successful transfer still appends its record. *)
Definition transfer_atomic_distinct (a b : string) (amt : float) (now : string)
    (s : State) : Prop :=
  let '(ok, s') := Bank.transfer_funds a b amt now s in
  (ok = false /\ s' = s)
  \/ (ok = true
      /\ history s' = history s ++ [Tx_transfer a b amt now]
      /\ committed s'
      /\ (a <> b -> transfer_applied a b amt now s s')).


(** The number of a created account is not a key of the account map it is
    added to. *)
Definition created_id_is_fresh (id account_type : string) (initial : float)
    (kw_rate kw_limit : option float) (uuid4 : string) (s : State) : Prop :=
  forall account,
    fst (Bank.create_account id account_type initial kw_rate kw_limit uuid4 s)
      = Some account ->
    _accounts (bank s) !! account_number account = None.

(** Interest as a product: every Savings balance is multiplied by
    [1 + interest_rate]. *)
Definition interest_multiplies (s s' : State) : Prop :=
  forall k n h b r,
    _accounts (bank s) !! k = Some (SavingsAccount n h b r) ->
    _accounts (bank s') !! k = Some (SavingsAccount n h (b * (1 + r))%float r).

(** ** The states that the successful operations produce *)

(** The state after a successful [create_account]. *)
Definition with_new_account (id number : string) (customer : Customer)
    (account : Account) (s : State) : State :=
  Bank.saved
    (mkBank (<[id := add_account_number number customer]> (_customers (bank s)))
       (<[number := account]> (_accounts (bank s)))
       (_transaction_history (bank s))).

(** The account that [to_account] denotes once the withdrawal is done: the
    debited object itself when both numbers are the same. *)
Definition credited_object (from_num to_num : string) (debited to_account : Account)
  : Account :=
  if bool_decide (from_num = to_num) then debited else to_account.

(** The bank after a transfer that went through. *)
Definition transferred (from_num to_num : string) (amt : float) (now : string)
    (from_account to_account : Account) (s : State) : State :=
  let debited := set_balance (balance from_account - amt)%float from_account in
  let target := credited_object from_num to_num debited to_account in
  Bank.saved
    (mkBank (_customers (bank s))
       (<[to_num := set_balance (balance target + amt)%float target]>
          (<[from_num := debited]> (_accounts (bank s))))
       (_transaction_history (bank s) ++ [Tx_transfer from_num to_num amt now])).

(** ** Well-formed and reachable states *)

(** The variant parameter of the account passes [>= 0]. *)
Definition parameter_ok (a : Account) : Prop :=
  match a with
  | SavingsAccount _ _ _ r => Amount.ge0 r = true
  | CurrentAccount _ _ _ l => Amount.ge0 l = true
  end.

(** A bank whose maps are keyed by the ids of the objects they hold, whose
    customers list each account number once and only numbers of accounts that
    exist, and whose accounts carry parameters that pass [>= 0]: what the
    constructors and [create_account] produce. *)
Definition well_formed (b : Bank) : Prop :=
  (forall k c, _customers b !! k = Some c ->
     customer_id c = k
     /\ NoDup (account_numbers c)
     /\ Forall (fun n => is_Some (_accounts b !! n)) (account_numbers c))
  /\ (forall k a, _accounts b !! k = Some a ->
        account_number a = k
        /\ parameter_ok a).

(** [deposit] and [withdraw] change nothing but the balance. *)
Definition balance_only (m : Account -> bool * Account) : Prop :=
  forall a, exists x, snd (m a) = set_balance x a.

(** The states of a bank object: built by [Bank.__init__] from any files, then
    driven through the methods of [Bank] (a customer handed to [add_customer]
    is a new [Customer(id, name, address)]). *)
Inductive reachable : State -> Prop :=
| reach_init f : reachable (Bank.init f)
| reach_add_customer s id nm addr :
    reachable s ->
    reachable (snd (Bank.add_customer (Customer_init id nm addr) s))
| reach_remove_customer s id :
    reachable s -> reachable (snd (Bank.remove_customer id s))
| reach_create_account s id account_type initial kw_rate kw_limit uuid4 :
    reachable s ->
    reachable (snd (Bank.create_account id account_type initial kw_rate
                      kw_limit uuid4 s))
| reach_deposit s number amount now :
    reachable s -> reachable (snd (Bank.deposit number amount now s))
| reach_withdraw s number amount now :
    reachable s -> reachable (snd (Bank.withdraw number amount now s))
| reach_transfer_funds s a b amount now :
    reachable s -> reachable (snd (Bank.transfer_funds a b amount now s))
| reach_apply_all_interest s now :
    reachable s -> reachable (Bank.apply_all_interest now s).

(** ** Sample states *)

Definition alice : Customer := mkCustomer "123456789" "A" "X" ["0a1b2c3d"].

Definition sample_savings : Account :=
  SavingsAccount "0a1b2c3d" "123456789" 100%float 0.1%float.

Definition sample_bank : Bank :=
  mkBank {[ "123456789" := alice ]} {[ "0a1b2c3d" := sample_savings ]} [].

Definition sample_state : State := Bank.saved sample_bank.

(** A savings account holding 0.9. *)
Definition small_state : State :=
  Bank.saved
    (mkBank {[ "123456789" := alice ]}
       {[ "0a1b2c3d" := SavingsAccount "0a1b2c3d" "123456789" 0.9%float 0.01%float ]}
       []).

(** Two customers with one account each. *)
Definition bob : Customer := mkCustomer "987654321" "B" "Y" ["feedc0de"].

Definition two_accounts : State :=
  Bank.saved
    (mkBank {[ "123456789" := alice; "987654321" := bob ]}
       {[ "0a1b2c3d" := sample_savings;
          "feedc0de" := CurrentAccount "feedc0de" "987654321" 0%float 50%float ]}
       []).

(** A first run: no file, customer 123456789 added, a savings account opened
    for it with nothing on it at the rate 0.1, then 100 deposited. *)
Definition first_customer : State :=
  snd (Bank.add_customer (Customer_init "123456789" "A" "X")
         (Bank.init no_files)).

Definition opened_state : State :=
  snd (Bank.create_account "123456789" "savings" 0 (Some 0.1%float) None
         "0a1b2c3d-0000-4000-8000-000000000000" first_customer).

Definition logged_state : State :=
  snd (Bank.deposit "0a1b2c3d" 100 "2024-01-01T00:00:00" opened_state).

(** The scenario of the savings account: opened with 100 at the rate 0.05. *)
Definition scenario_savings : State :=
  snd (Bank.create_account "123456789" "savings" 100 (Some 0.05%float) None
         "0a1b2c3d-0000-4000-8000-000000000000" first_customer).

(** The scenario of the current account: opened with 0 and an overdraft limit
    of 50. *)
Definition scenario_current : State :=
  snd (Bank.create_account "123456789" "current" 0 None (Some 50%float)
         "feedc0de-0000-4000-8000-000000000000" first_customer).

(** ** The account view *)

(** The part of the user interface that changes the bank without going
    through a method of [Bank]. *)
Module AccountManagementView.

(** [delete_account]; [selected] is [self.tree.selection()], of which the
    first element is the account number.  The message boxes and the refresh
    of the list, which do not touch the bank, are left out. *)
Definition delete_account (selected : list string) (s : State) : State :=
  match selected with
  | [] => s
  | acc_no :: _ =>
      let b := bank s in
      match _accounts b !! acc_no with
      | None => s
      | Some acc =>
          let customers :=
            match _customers b !! account_holder_id acc with
            | Some cust =>
                <[account_holder_id acc := remove_account_number acc_no cust]>
                  (_customers b)
            | None => _customers b
            end in
          Bank.saved
            (mkBank customers (delete acc_no (_accounts b))
               (_transaction_history b))
      end
  end.

End AccountManagementView.

(** ** Further vocabulary *)

(** A savings account whose balance is not below zero; nothing is asked of a
    current account. *)
Definition solvent (a : Account) : Prop :=
  match a with
  | SavingsAccount _ _ b _ => PrimFloat.ltb b 0 = false
  | CurrentAccount _ _ _ _ => True
  end.

Definition all_solvent (b : Bank) : Prop :=
  forall k a, _accounts b !! k = Some a -> solvent a.

(** The log of [s'] is the log of [s] with at most one record more. *)
Definition log_step (s s' : State) : Prop :=
  history s' = history s \/ exists t, history s' = history s ++ [t].

(** One balance-changing call on the bank: a deposit, a withdrawal, a
    transfer or the application of interest, accepted or refused. *)
Inductive transaction (s : State) : State -> Prop :=
| tx_deposit number amount now :
    transaction s (snd (Bank.deposit number amount now s))
| tx_withdraw number amount now :
    transaction s (snd (Bank.withdraw number amount now s))
| tx_transfer_funds a b amount now :
    transaction s (snd (Bank.transfer_funds a b amount now s))
| tx_apply_all_interest now :
    transaction s (Bank.apply_all_interest now s).

(** One call that changes the bank, of any kind: a transaction, the addition
    or the removal of a customer, the creation of an account, or the deletion
    of an account from the account view. *)
Inductive step (s : State) : State -> Prop :=
| step_transaction s' : transaction s s' -> step s s'
| step_add_customer customer :
    step s (snd (Bank.add_customer customer s))
| step_remove_customer id :
    step s (snd (Bank.remove_customer id s))
| step_create_account id account_type initial kw_rate kw_limit uuid4 :
    step s (snd (Bank.create_account id account_type initial kw_rate kw_limit
                   uuid4 s))
| step_delete_account selected :
    step s (AccountManagementView.delete_account selected s).

(** * Properties *)

(** ** Facts of binary64 arithmetic

    The comparisons and the subtraction of the source, read through their
    specification on [spec_float]. *)

Section FloatFacts.

Local Open Scope Z_scope.

Lemma Prim2SF_zero : Prim2SF 0%float = S754_zero false.
Proof. reflexivity. Qed.

Lemma digits2_pos_bounds (m : positive) :
  2 ^ (Zpos (digits2_pos m) - 1) <= Zpos m < 2 ^ Zpos (digits2_pos m).
Proof.
  induction m as [p IH | p IH |]; simpl digits2_pos.
  - rewrite Pos2Z.inj_succ.
    replace (Z.succ (Zpos (digits2_pos p)) - 1)
      with (Z.succ (Zpos (digits2_pos p) - 1)) by lia.
    rewrite !Z.pow_succ_r by lia. lia.
  - rewrite Pos2Z.inj_succ.
    replace (Z.succ (Zpos (digits2_pos p)) - 1)
      with (Z.succ (Zpos (digits2_pos p) - 1)) by lia.
    rewrite !Z.pow_succ_r by lia. lia.
  - simpl. lia.
Qed.

Lemma iter_xO_double (m d : positive) : 2 * Zpos m <= Zpos (Pos.iter xO m d).
Proof.
  induction d as [| d IH] using Pos.peano_ind.
  - simpl. lia.
  - rewrite Pos.iter_succ. lia.
Qed.

(** Rounding a magnitude with the sign bit clear gives nothing below zero. *)
Lemma round_false_not_negative mx ex lx :
  SFltb (binary_round_aux prec emax false mx ex lx) (S754_zero false) = false.
Proof.
  unfold binary_round_aux.
  destruct (shr_fexp prec emax mx ex lx) as [mrs' e'].
  destruct (shr_fexp prec emax _ e' loc_Exact) as [mrs'' e''].
  destruct (shr_m mrs''); [reflexivity | | reflexivity].
  destruct (e'' <=? emax - prec); reflexivity.
Qed.

Lemma normalize_nonneg_not_negative (m e : Z) :
  0 <= m ->
  SFltb (binary_normalize prec emax m e false) (S754_zero false) = false.
Proof.
  intros Hm. destruct m as [| p | p]; [reflexivity | | lia].
  unfold binary_normalize, binary_round.
  destruct (shl_align _ _ _). apply round_false_not_negative.
Qed.

(** A valid finite number above the least exponent has a full mantissa. *)
Lemma bounded_exponent m e :
  bounded prec emax m e = true ->
  SpecFloat.emin prec emax <= e
  /\ Zpos (digits2_pos m) <= prec
  /\ (SpecFloat.emin prec emax < e -> Zpos (digits2_pos m) = prec).
Proof.
  unfold bounded, canonical_mantissa, fexp. intros H.
  apply andb_true_iff in H as [H _]. apply Z.eqb_eq in H. lia.
Qed.

Lemma shl_align_same m e : shl_align m e e = (m, e).
Proof. unfold shl_align. now rewrite Z.sub_diag. Qed.

(** The mantissas of two positive numbers [b >= a], aligned on the smaller
    exponent as [SFsub] aligns them. *)
Lemma aligned_difference_nonneg mb eb ma ea :
  bounded prec emax mb eb = true ->
  bounded prec emax ma ea = true ->
  SFltb (S754_finite false mb eb) (S754_finite false ma ea) = false ->
  0 <= Zpos (fst (shl_align mb eb (Z.min eb ea)))
       - Zpos (fst (shl_align ma ea (Z.min eb ea))).
Proof.
  intros Hb Ha Hlt.
  apply bounded_exponent in Hb as (Hb1 & Hb2 & Hb3).
  apply bounded_exponent in Ha as (Ha1 & Ha2 & Ha3).
  unfold SFltb, SFcompare in Hlt.
  destruct (Z.compare_spec eb ea) as [Heq | Hl | Hg].
  - subst ea. rewrite Z.min_id, !shl_align_same. simpl.
    rewrite Pos.compare_cont_spec in Hlt. simpl in Hlt.
    destruct (Pos.compare_spec mb ma); try discriminate; lia.
  - discriminate.
  - rewrite Z.min_r by lia. rewrite shl_align_same. simpl.
    unfold shl_align. destruct (ea - eb) as [| d | d] eqn:Hd; try lia.
    simpl. pose proof (iter_xO_double mb d).
    pose proof (digits2_pos_bounds mb) as Db.
    pose proof (digits2_pos_bounds ma) as Da.
    rewrite Hb3 in Db by lia.
    assert (Zpos ma < 2 ^ prec).
    { eapply Z.lt_le_trans; [apply Da|]. apply Z.pow_le_mono_r; lia. }
    change (2 ^ prec) with (2 * 2 ^ (prec - 1)) in *. lia.
Qed.

(** With [a <= 0] and [b < a] both false, [b - a] is not below zero. *)
Lemma sub_not_negative (b a : float) :
  PrimFloat.leb a 0 = false -> PrimFloat.ltb b a = false ->
  PrimFloat.ltb (b - a) 0 = false.
Proof.
  rewrite leb_spec, !ltb_spec, sub_spec, Prim2SF_zero.
  pose proof (Prim2SF_valid b) as Vb. pose proof (Prim2SF_valid a) as Va.
  destruct (Prim2SF a) as [sa | sa | | sa ma ea],
           (Prim2SF b) as [sb | sb | | sb mb eb];
    try destruct sa; try destruct sb; try reflexivity; try discriminate.
  intros _ Hlt. unfold SF64sub, SFsub, cond_Zopp.
  apply normalize_nonneg_not_negative.
  now apply aligned_difference_nonneg.
Qed.

Lemma SFcompare_antisym (x y : spec_float) :
  SFcompare x y = option_map CompOpp (SFcompare y x).
Proof.
  destruct x as [sx | sx | | sx mx ex], y as [sy | sy | | sy my ey];
    try destruct sx; try destruct sy; try reflexivity; simpl;
    rewrite (Z.compare_antisym ey ex);
    destruct (ey ?= ex); simpl; try reflexivity;
    rewrite (Pos.compare_cont_antisym my mx Eq); reflexivity.
Qed.

(** [y <= x] excludes [x < y]. *)
Lemma leb_not_ltb (x y : float) :
  PrimFloat.leb y x = true -> PrimFloat.ltb x y = false.
Proof.
  rewrite leb_spec, ltb_spec. unfold SFleb, SFltb.
  rewrite (SFcompare_antisym (Prim2SF x) (Prim2SF y)).
  destruct (SFcompare (Prim2SF y) (Prim2SF x)) as [[ | | ] | ];
    simpl; congruence.
Qed.

(** A negative number fails the test [>= 0]. *)
Lemma negative_not_ge0 (r : float) :
  PrimFloat.ltb r 0 = true -> PrimFloat.leb 0 r = false.
Proof.
  rewrite leb_spec, ltb_spec, Prim2SF_zero.
  destruct (Prim2SF r) as [s | s | | s m e]; try destruct s; cbv; congruence.
Qed.

End FloatFacts.

(** ** Withdrawals and the floor of an account *)

Lemma withdraw_refused_unchanged (amount : float) (a : Account) :
  fst (Account.withdraw amount a) = false ->
  snd (Account.withdraw amount a) = a.
Proof.
  destruct a as [n h b r | n h b l]; simpl;
    match goal with |- context [if ?c then _ else _] => destruct c end;
    simpl; congruence.
Qed.

(** An accepted withdrawal ends on [balance - amount], not below the floor. *)
Lemma withdraw_accepted_above_floor (amount : float) (a : Account) :
  fst (Account.withdraw amount a) = true ->
  snd (Account.withdraw amount a) = set_balance (balance a - amount)%float a
  /\ below_floor (set_balance (balance a - amount)%float a) = false.
Proof.
  destruct a as [n h b r | n h b l]; simpl;
    match goal with |- context [if ?c then _ else _] => destruct c eqn:Hc end;
    simpl; try discriminate; intros _; split; try reflexivity;
    apply orb_false_iff in Hc as [Hle Hlow]; unfold below_floor; simpl.
  - now apply sub_not_negative.
  - exact Hlow.
Qed.

(** The floor is an invariant of [withdraw], accepted or refused. *)
Lemma withdraw_keeps_floor (amount : float) (a : Account) :
  below_floor a = false ->
  below_floor (snd (Account.withdraw amount a)) = false.
Proof.
  intros Ha. destruct (fst (Account.withdraw amount a)) eqn:Hok.
  - destruct (withdraw_accepted_above_floor amount a Hok) as [-> H]. exact H.
  - now rewrite withdraw_refused_unchanged.
Qed.

(** C3. For an account whose balance is at or above its floor ([0] for
    Savings, [-1 * overdraft_limit] for Current) and for any amount, the
    balance after [withdraw] is not below the floor; a withdrawal whose
    difference [balance - amount] would be below the floor is refused and
    leaves the account as it was. *)
Theorem withdraw_respects_floor (a : Account) (amount : float) :
  satisfies_floor a = true ->
  below_floor (snd (Account.withdraw amount a)) = false
  /\ (below_floor (set_balance (balance a - amount)%float a) = true ->
      Account.withdraw amount a = (false, a)).
Proof.
  intros Hfloor. split.
  - apply withdraw_keeps_floor. now apply leb_not_ltb.
  - intros Hbelow. destruct (fst (Account.withdraw amount a)) eqn:Hok.
    + destruct (withdraw_accepted_above_floor amount a Hok) as [_ H]. congruence.
    + pose proof (withdraw_refused_unchanged amount a Hok) as Hsame.
      destruct (Account.withdraw amount a) as [ok a']. simpl in *. congruence.
Qed.

(** A savings account of 100 asked for 150: the withdrawal is refused. *)
Lemma withdraw_respects_floor_witness :
  satisfies_floor sample_savings = true
  /\ below_floor (snd (Account.withdraw 150 sample_savings)) = false
  /\ (below_floor (set_balance (balance sample_savings - 150)%float sample_savings)
        = true ->
      Account.withdraw 150 sample_savings = (false, sample_savings)).
Proof.
  split; [reflexivity |].
  apply (withdraw_respects_floor sample_savings 150). reflexivity.
Defined.

(** ** Account creation *)

Lemma create_account_built (s : State) (id account_type : string)
    (customer : Customer) (initial : float) (kw_rate kw_limit : option float)
    (uuid4 : string) (account : Account) :
  _customers (bank s) !! id = Some customer ->
  Bank.construct account_type (substring 0 8 uuid4) id initial kw_rate kw_limit
    = Some account ->
  Bank.create_account id account_type initial kw_rate kw_limit uuid4 s
    = (Some account, with_new_account id (substring 0 8 uuid4) customer account s).
Proof.
  intros Hc Hk. unfold Bank.create_account. rewrite Hc, Hk. reflexivity.
Qed.

(** Whatever succeeds went through the constructor, on an existing customer,
    and is stored under the first eight characters of the UUID. *)
Lemma create_account_inv (s : State) (id account_type : string)
    (initial : float) (kw_rate kw_limit : option float) (uuid4 : string)
    (account : Account) :
  fst (Bank.create_account id account_type initial kw_rate kw_limit uuid4 s)
    = Some account ->
  exists customer,
    _customers (bank s) !! id = Some customer
    /\ Bank.construct account_type (substring 0 8 uuid4) id initial
         kw_rate kw_limit = Some account
    /\ account_number account = substring 0 8 uuid4.
Proof.
  unfold Bank.create_account.
  destruct (_customers (bank s) !! id) as [customer |]; [| discriminate].
  destruct (Bank.construct _ _ _ _ _ _) as [acc |] eqn:Hk; [| discriminate].
  simpl. intros [= ->]. exists customer. repeat split; trivial.
  unfold Bank.construct in Hk.
  repeat case_bool_decide; inversion Hk; reflexivity.
Qed.

(** C4. For an existing customer, [create_account] with a negative interest
    rate (savings) or a negative overdraft limit (current) succeeds and the
    account carries the default, 0.01 or 0; a parameter that is [>= 0] is
    kept as given.  The account is returned, stored under its number and
    saved in both cases. *)
Theorem create_account_clamps (s : State) (id : string) (customer : Customer)
    (initial p : float) (kw_rate kw_limit : option float) (uuid4 : string) :
  _customers (bank s) !! id = Some customer ->
  let number := substring 0 8 uuid4 in
  let kept (d : float) := if PrimFloat.ltb p 0 then d else p in
  PrimFloat.ltb p 0 = true \/ PrimFloat.leb 0 p = true ->
  Bank.create_account id "savings" initial (Some p) kw_limit uuid4 s
    = (Some (SavingsAccount number id initial (kept default_interest_rate)),
       with_new_account id number customer
         (SavingsAccount number id initial (kept default_interest_rate)) s)
  /\ Bank.create_account id "current" initial kw_rate (Some p) uuid4 s
    = (Some (CurrentAccount number id initial (kept default_overdraft_limit)),
       with_new_account id number customer
         (CurrentAccount number id initial (kept default_overdraft_limit)) s).
Proof.
  intros Hc number kept Hp.
  assert (Hge : Amount.ge0 p = negb (PrimFloat.ltb p 0)).
  { unfold Amount.ge0. destruct Hp as [Hneg | Hpos].
    - rewrite Hneg. now apply negative_not_ge0.
    - rewrite Hpos. now rewrite (leb_not_ltb p 0 Hpos). }
  split; apply create_account_built; trivial; unfold Bank.construct; simpl;
    unfold SavingsAccount_init, CurrentAccount_init, kept; rewrite Hge;
    destruct (PrimFloat.ltb p 0); reflexivity.
Qed.

(** An interest rate and an overdraft limit of [-3]. *)
Lemma create_account_clamps_witness :
  fst (Bank.create_account "123456789" "savings" 10 (Some (-3)%float) None
         "c0ffee11-0000-4000-8000-000000000000" sample_state)
    = Some (SavingsAccount "c0ffee11" "123456789" 10 0.01)
  /\ fst (Bank.create_account "123456789" "current" 10 None (Some (-3)%float)
         "c0ffee11-0000-4000-8000-000000000000" sample_state)
    = Some (CurrentAccount "c0ffee11" "123456789" 10 0).
Proof.
  destruct (create_account_clamps sample_state "123456789" alice 10 (-3) None None
              "c0ffee11-0000-4000-8000-000000000000" eq_refl
              (or_introl eq_refl)) as [Hs Hc].
  split; [rewrite Hs | rewrite Hc]; reflexivity.
Defined.

(** C10. For an existing customer and a recognised account type,
    [create_account] succeeds whatever the initial balance, which becomes the
    balance of the account unchanged; no floor is tested. *)
Theorem create_account_any_balance (s : State) (id account_type : string)
    (customer : Customer) (initial : float) (kw_rate kw_limit : option float)
    (uuid4 : string) :
  _customers (bank s) !! id = Some customer ->
  account_type = "savings" \/ account_type = "current" ->
  exists account,
    Bank.create_account id account_type initial kw_rate kw_limit uuid4 s
      = (Some account,
         with_new_account id (substring 0 8 uuid4) customer account s)
    /\ balance account = initial
    /\ is_savings account = bool_decide (account_type = "savings").
Proof.
  intros Hc [-> | ->].
  - eexists. split; [apply create_account_built; [exact Hc | reflexivity] |].
    split; reflexivity.
  - eexists. split; [apply create_account_built; [exact Hc | reflexivity] |].
    split; reflexivity.
Qed.

(** A savings account opened with [-5], below its floor from the start. *)
Lemma create_account_any_balance_witness :
  exists account,
    Bank.create_account "123456789" "savings" (-5) None None
      "c0ffee11-0000-4000-8000-000000000000" sample_state
      = (Some account, with_new_account "123456789" "c0ffee11" alice account
                         sample_state)
    /\ balance account = (-5)%float
    /\ is_savings account = true.
Proof.
  exact (create_account_any_balance sample_state "123456789" "savings" alice
           (-5) None None "c0ffee11-0000-4000-8000-000000000000"
           eq_refl (or_introl eq_refl)).
Defined.

(** ** Method calls on stored accounts *)

Lemma set_accounts_same (b : Bank) (k : string) (a : Account) :
  _accounts b !! k = Some a ->
  Bank.set_accounts (<[k := a]> (_accounts b)) b = b.
Proof.
  intros H. unfold Bank.set_accounts. rewrite (insert_id _ _ _ H).
  now destruct b.
Qed.

Lemma unsaved_same (s : State) : Bank.unsaved (bank s) s = s.
Proof. now destruct s. Qed.

Lemma on_account_some (k : string) (m : Account -> bool * Account)
    (b : Bank) (a : Account) :
  _accounts b !! k = Some a ->
  Bank.on_account k m b
    = (fst (m a), Bank.set_accounts (<[k := snd (m a)]> (_accounts b)) b).
Proof.
  intros H. unfold Bank.on_account. rewrite H. now destruct (m a).
Qed.

Lemma deposit_accepted (amount : float) (a : Account) :
  Amount.le0 amount = false ->
  Account.deposit amount a = (true, set_balance (balance a + amount)%float a).
Proof. intros H. destruct a; simpl; now rewrite H. Qed.

Lemma deposit_refused (amount : float) (a : Account) :
  Amount.le0 amount = true -> Account.deposit amount a = (false, a).
Proof. intros H. destruct a; simpl; now rewrite H. Qed.

Lemma withdraw_accepted_positive (amount : float) (a : Account) :
  fst (Account.withdraw amount a) = true -> Amount.le0 amount = false.
Proof.
  destruct a; simpl; destruct (Amount.le0 amount); simpl; congruence.
Qed.

Lemma balance_set_balance (x : float) (a : Account) :
  balance (set_balance x a) = x.
Proof. now destruct a. Qed.

(** ** Transfers *)

(** [transfer_funds] succeeds exactly when both accounts exist, the amount
    passes [amount <= 0] and the withdrawal is accepted; the compensating
    deposit is never reached. *)
Lemma transfer_funds_cases (a b : string) (amt : float) (now : string)
    (s : State) :
  (Bank.transfer_funds a b amt now s = (false, s))
  \/ (exists fa ta,
        _accounts (bank s) !! a = Some fa
        /\ _accounts (bank s) !! b = Some ta
        /\ fst (Account.withdraw amt fa) = true
        /\ Bank.transfer_funds a b amt now s
             = (true, transferred a b amt now fa ta s)).
Proof.
  unfold Bank.transfer_funds.
  destruct (_accounts (bank s) !! a) as [fa |] eqn:Ha; [| now left].
  destruct (_accounts (bank s) !! b) as [ta |] eqn:Hb; [| now left].
  destruct (Amount.le0 amt) eqn:Hle; [now left |].
  rewrite (on_account_some a _ _ fa Ha).
  destruct (fst (Account.withdraw amt fa)) eqn:Hw; simpl.
  - right. exists fa, ta. repeat split; trivial.
    destruct (withdraw_accepted_above_floor amt fa Hw) as [Hsnd _].
    rewrite Hsnd.
    set (debited := set_balance (balance fa - amt)%float fa).
    assert (Hto : _accounts (Bank.set_accounts
                               (<[a := debited]> (_accounts (bank s))) (bank s))
                    !! b = Some (credited_object a b debited ta)).
    { simpl. unfold credited_object. case_bool_decide as Hab.
      - subst b. apply lookup_insert_eq.
      - now rewrite lookup_insert_ne. }
    rewrite (on_account_some b _ _ _ Hto), deposit_accepted by exact Hle.
    reflexivity.
  - left. rewrite (withdraw_refused_unchanged amt fa Hw).
    rewrite (set_accounts_same _ _ _ Ha). now rewrite unsaved_same.
Qed.

Lemma transfer_funds_failure (a b : string) (amt : float) (now : string)
    (s : State) :
  fst (Bank.transfer_funds a b amt now s) = false ->
  snd (Bank.transfer_funds a b amt now s) = s.
Proof.
  destruct (transfer_funds_cases a b amt now s) as [-> | (fa & ta & _ & _ & _ & ->)];
    simpl; congruence.
Qed.

(** C2. [transfer_funds a b amt] fails and leaves the whole state (bank and
    files) as it was, or succeeds, appends exactly one transfer record and
    saves; when it succeeds between two distinct accounts, the balance of [a]
    has moved by [- amt] and that of [b] by [+ amt]. *)
Theorem transfer_funds_atomic (a b : string) (amt : float) (now : string)
    (s : State) :
  transfer_atomic_distinct a b amt now s.
Proof.
  unfold transfer_atomic_distinct.
  destruct (transfer_funds_cases a b amt now s)
    as [-> | (fa & ta & Ha & Hb & Hw & ->)]; [now left | right].
  split; [reflexivity |]. split; [reflexivity |]. split; [reflexivity |].
  intros Hab. unfold transfer_applied, transferred, balance_of, credited_object.
  rewrite bool_decide_eq_false_2 by exact Hab. simpl.
  rewrite Ha, Hb. simpl.
  rewrite lookup_insert_ne, lookup_insert_eq by congruence.
  rewrite lookup_insert_eq. simpl.
  now rewrite !balance_set_balance.
Qed.

(** A transfer of 30 from the account of 100 to itself succeeds: the balance
    is 100 and not 70, and the log has grown. *)
Lemma transfer_atomic_fails_on_self :
  ~ transfer_atomic "0a1b2c3d" "0a1b2c3d" 30 "2024-01-01T00:00:00" sample_state.
Proof.
  unfold transfer_atomic.
  destruct (Bank.transfer_funds _ _ _ _ _) as [ok s'] eqn:Hrun.
  vm_compute in Hrun. injection Hrun as <- <-.
  intros [[(Ha & _) | (_ & _ & Hh)] _].
  - apply (f_equal balance_bits) in Ha. vm_compute in Ha. discriminate.
  - vm_compute in Hh. discriminate.
Qed.

(** ** A transfer from an account to itself *)




(** ** Customers *)


(** C7. [remove_customer] fails exactly when the customer does not exist or
    its list of account numbers is not empty; and adding a customer with a
    fresh, valid id and no account, then removing it, succeeds twice and gives
    back the customer map, the account map and the log of the start. *)
Theorem remove_customer_fails_iff (s : State) (id : string) :
  (fst (Bank.remove_customer id s) = false <->
     _customers (bank s) !! id = None
     \/ exists c, _customers (bank s) !! id = Some c /\ account_numbers c <> [])
  /\ (forall customer,
        customer_id customer = id ->
        account_numbers customer = [] ->
        valid_customer_id id ->
        _customers (bank s) !! id = None ->
        let '(added, s1) := Bank.add_customer customer s in
        let '(removed, s2) := Bank.remove_customer id s1 in
        added = true /\ removed = true
        /\ _customers (bank s2) = _customers (bank s)
        /\ _accounts (bank s2) = _accounts (bank s)
        /\ history s2 = history s
        /\ committed s2).
Proof.
  split.
  - unfold Bank.remove_customer.
    destruct (_customers (bank s) !! id) as [c |] eqn:Hc.
    + destruct (account_numbers c) as [| n l] eqn:Hn; simpl.
      * split; [discriminate |].
        intros [H | (c' & [= <-] & H)]; [discriminate | congruence].
      * split; [| reflexivity]. intros _. right. exists c. split; congruence.
    + simpl. split; auto.
  - intros customer Hid Hnone (Hlen & Hdig) Hfresh.
    unfold Bank.add_customer. rewrite Hid.
    rewrite bool_decide_eq_false_2
      by (rewrite Hfresh; intros [? ?]; discriminate).
    rewrite Hlen, Hdig. simpl.
    unfold Bank.remove_customer. simpl.
    rewrite lookup_insert_eq, Hnone. simpl.
    repeat split.
    now rewrite delete_insert_eq, delete_id.
Qed.

(** Customer 555555555, added to the sample state and removed again. *)
Lemma remove_customer_fails_iff_witness :
  let '(added, s1) :=
    Bank.add_customer (Customer_init "555555555" "C" "Z") sample_state in
  let '(removed, s2) := Bank.remove_customer "555555555" s1 in
  added = true /\ removed = true
  /\ _customers (bank s2) = _customers (bank sample_state)
  /\ _accounts (bank s2) = _accounts (bank sample_state)
  /\ history s2 = history sample_state
  /\ committed s2.
Proof.
  exact (proj2 (remove_customer_fails_iff sample_state "555555555")
           (Customer_init "555555555" "C" "Z") eq_refl eq_refl
           (conj eq_refl eq_refl) eq_refl).
Defined.

(** ** Account numbers *)

(** C5. A successful [create_account] numbers the account with the first
    eight characters of the UUID and stores it under that number, without
    looking the number up in the account map; every account under another
    number is kept, so that when the number is not yet a key of the map it
    differs from every key present and all the accounts present are kept. *)
Theorem create_account_number (s : State) (id account_type : string)
    (initial : float) (kw_rate kw_limit : option float) (uuid4 : string)
    (account : Account) :
  fst (Bank.create_account id account_type initial kw_rate kw_limit uuid4 s)
    = Some account ->
  let s' :=
    snd (Bank.create_account id account_type initial kw_rate kw_limit uuid4 s) in
  let number := substring 0 8 uuid4 in
  account_number account = number
  /\ _accounts (bank s') = <[number := account]> (_accounts (bank s))
  /\ (forall k, k <> number ->
        _accounts (bank s') !! k = _accounts (bank s) !! k)
  /\ (_accounts (bank s) !! number = None ->
      forall k old,
        _accounts (bank s) !! k = Some old ->
        k <> number /\ _accounts (bank s') !! k = Some old).
Proof.
  intros Hok s' number.
  destruct (create_account_inv _ _ _ _ _ _ _ _ Hok) as (customer & Hc & Hk & Hn).
  assert (Hs : _accounts (bank s') = <[number := account]> (_accounts (bank s))).
  { unfold s'. now rewrite (create_account_built _ _ _ _ _ _ _ _ _ Hc Hk). }
  split; [exact Hn |]. split; [exact Hs |]. split.
  - intros k Hk'. rewrite Hs. now apply lookup_insert_ne.
  - intros Hfresh k old Hold.
    assert (k <> number) by congruence.
    split; [assumption |]. rewrite Hs. now rewrite lookup_insert_ne.
Qed.

(** A second account for Bob, under a number that is not taken. *)
Lemma create_account_number_witness :
  let s' :=
    snd (Bank.create_account "987654321" "savings" 1 None None
           "c0ffee11-0000-4000-8000-000000000000" two_accounts) in
  account_number (SavingsAccount "c0ffee11" "987654321" 1 0.01) = "c0ffee11"
  /\ _accounts (bank s')
       = <["c0ffee11" := SavingsAccount "c0ffee11" "987654321" 1 0.01]>
           (_accounts (bank two_accounts))
  /\ (forall k, k <> "c0ffee11" ->
        _accounts (bank s') !! k = _accounts (bank two_accounts) !! k)
  /\ (_accounts (bank two_accounts) !! "c0ffee11" = None ->
      forall k old,
        _accounts (bank two_accounts) !! k = Some old ->
        k <> "c0ffee11" /\ _accounts (bank s') !! k = Some old).
Proof.
  exact (create_account_number two_accounts "987654321" "savings" 1 None None
           "c0ffee11-0000-4000-8000-000000000000"
           (SavingsAccount "c0ffee11" "987654321" 1 0.01) eq_refl).
Defined.

(** The UUID starts with the number of Alice's savings account: Bob's new
    account takes that number, which was a key of the account map. *)
Lemma created_id_collides :
  ~ created_id_is_fresh "987654321" "current" 0 None None
      "0a1b2c3d-1111-4111-8111-111111111111" two_accounts.
Proof.
  intros H.
  specialize (H (CurrentAccount "0a1b2c3d" "987654321" 0 0) eq_refl).
  vm_compute in H. discriminate.
Qed.

(** ** Interest *)

(** C8. [apply_all_interest] replaces the balance [b] of every savings
    account by [b + b * interest_rate], leaves every current account as it is,
    creates and removes no account, appends exactly one [apply_interest]
    record whatever the accounts are, and saves. *)
Theorem apply_all_interest_effect (now : string) (s : State) :
  let s' := Bank.apply_all_interest now s in
  (forall k n h b r,
     _accounts (bank s) !! k = Some (SavingsAccount n h b r) ->
     _accounts (bank s') !! k = Some (SavingsAccount n h (b + b * r)%float r))
  /\ (forall k n h b l,
        _accounts (bank s) !! k = Some (CurrentAccount n h b l) ->
        _accounts (bank s') !! k = Some (CurrentAccount n h b l))
  /\ (forall k, _accounts (bank s) !! k = None ->
                _accounts (bank s') !! k = None)
  /\ _customers (bank s') = _customers (bank s)
  /\ history s' = history s ++ [Tx_apply_interest now]
  /\ committed s'.
Proof.
  simpl. repeat split; intros; rewrite lookup_fmap;
    match goal with H : _ !! _ = _ |- _ => rewrite H end; reflexivity.
Qed.

(** A balance of 100 at the rate 0.1: the method gives [100 + 100 * 0.1],
    which is 110, and the product [100 * (1 + 0.1)] is 110.00000000000001. *)
Lemma interest_is_not_a_product :
  ~ interest_multiplies sample_state
      (Bank.apply_all_interest "2024-01-01T00:00:00" sample_state).
Proof.
  intros H.
  specialize (H "0a1b2c3d" "0a1b2c3d" "123456789" 100%float 0.1%float eq_refl).
  apply (f_equal (fun o => balance_bits (balance <$> o))) in H.
  vm_compute in H. discriminate.
Qed.

(** Without any savings account, and without any account at all, the record
    is appended all the same. *)
Example apply_all_interest_no_account :
  history (Bank.apply_all_interest "t" (Bank.init no_files))
    = [Tx_apply_interest "t"].
Proof. reflexivity. Qed.

(** ** Persistence *)

(** What [Bank.__init__] builds from the files that [_save_data] has just
    written has an empty log: [_load_data] does not read the third file, and
    the constructor resets the log after it. *)
Lemma load_after_save_log_empty (b : Bank) :
  _transaction_history (bank (Bank.init (Bank._save_data b))) = [].
Proof. reflexivity. Qed.

(** *** A save followed by a load *)

Section LoadFold.

Context {V D : Type} (to_dict : V -> D)
        (step : gmap string V -> D -> gmap string V).

Lemma foldl_insert_reverse (l : list (string * V)) :
  foldl (fun (acc : gmap string V) kv => <[kv.1 := kv.2]> acc) ∅ l
    = list_to_map (reverse l).
Proof.
  induction l as [| x l IH] using rev_ind; [reflexivity |].
  rewrite foldl_snoc, reverse_snoc, IH. reflexivity.
Qed.

(** Reading back, entry by entry, the values of a map written in the order of
    its enumeration gives the map. *)
Lemma foldl_step_restores (m : gmap string V) :
  (forall acc k v, m !! k = Some v -> step acc (to_dict v) = <[k := v]> acc) ->
  foldl step ∅ (to_dict <$> (map_to_list m).*2) = m.
Proof.
  intros Hstep.
  assert (Hl : forall l acc,
             (forall k v, (k, v) ∈ l -> m !! k = Some v) ->
             foldl step acc (to_dict <$> l.*2)
               = foldl (fun (a : gmap string V) kv => <[kv.1 := kv.2]> a) acc l).
  { induction l as [| [k v] l IH]; intros acc Hin; [reflexivity |]. simpl.
    rewrite (Hstep acc k v) by (apply Hin; left).
    apply IH. intros k' v' H'. apply Hin. now right. }
  rewrite Hl by (intros k v; apply elem_of_map_to_list).
  rewrite foldl_insert_reverse.
  rewrite (list_to_map_proper (reverse (map_to_list m)) (map_to_list m)).
  - apply list_to_map_to_list.
  - rewrite reverse_Permutation. apply NoDup_fst_map_to_list.
  - apply reverse_Permutation.
Qed.

End LoadFold.

Lemma load_customer_numbers (id nm addr : string) (acc l : list string) :
  NoDup (acc ++ l) ->
  foldl (fun c n => add_account_number n c) (mkCustomer id nm addr acc) l
    = mkCustomer id nm addr (acc ++ l).
Proof.
  revert acc. induction l as [| n l IH]; intros acc Hnd; simpl.
  - now rewrite app_nil_r.
  - unfold add_account_number at 2. simpl.
    rewrite bool_decide_eq_false_2.
    + rewrite IH; rewrite <- app_assoc; [reflexivity | exact Hnd].
    + apply NoDup_app in Hnd as (_ & Hdis & _). intros Hin.
      apply (Hdis n Hin). left.
Qed.

Lemma load_customer_to_dict (c : Customer) :
  NoDup (account_numbers c) ->
  Bank.load_customer (Customer_to_dict c) = c.
Proof.
  intros Hnd. unfold Bank.load_customer, Customer_init. simpl.
  rewrite load_customer_numbers by exact Hnd. now destruct c.
Qed.

Lemma load_account_to_dict (a : Account) :
  parameter_ok a ->
  Bank.load_account (Account_to_dict a) = Some a.
Proof.
  destruct a as [n h b r | n h b l]; intros Hge; unfold Bank.load_account; simpl;
    unfold SavingsAccount_init, CurrentAccount_init; now rewrite Hge.
Qed.

Lemma prune_all_present (accounts : gmap string Account) (c : Customer) :
  Forall (fun n => is_Some (accounts !! n)) (account_numbers c) ->
  Bank.prune accounts c = c.
Proof.
  intros Hall. unfold Bank.prune.
  replace (filter _ (account_numbers c)) with (account_numbers c);
    [now destruct c |].
  induction Hall as [| n l Hn Hl IH]; [reflexivity |].
  rewrite filter_cons_True by exact Hn. now rewrite <- IH.
Qed.

(** On a well-formed bank, the customers and the accounts come back from the
    files as they were saved: the log is all that a save and a load lose. *)
Theorem load_after_save_restores_maps (b : Bank) :
  well_formed b ->
  _customers (bank (Bank.init (Bank._save_data b))) = _customers b
  /\ _accounts (bank (Bank.init (Bank._save_data b))) = _accounts b.
Proof.
  intros [Hc Ha].
  assert (Hacc : Bank.load_accounts (Bank._save_data b) = _accounts b).
  { unfold Bank.load_accounts. simpl. apply foldl_step_restores.
    intros acc k a Hk. destruct (Ha k a Hk) as [Hnum Hge].
    rewrite (load_account_to_dict a Hge). now rewrite Hnum. }
  assert (Hcus : Bank.load_customers (Bank._save_data b) = _customers b).
  { unfold Bank.load_customers. simpl. apply foldl_step_restores.
    intros acc k c Hk. destruct (Hc k c Hk) as (Hid & Hnd & _).
    simpl. rewrite (load_customer_to_dict c Hnd). now rewrite Hid. }
  unfold Bank.init, Bank._load_data. rewrite Hacc, Hcus. simpl.
  split; [| reflexivity].
  apply map_eq. intros k. rewrite lookup_fmap.
  destruct (_customers b !! k) as [c |] eqn:Hk; [| reflexivity]. simpl.
  destruct (Hc k c Hk) as (_ & _ & Hall). now rewrite prune_all_present.
Qed.

(** *** The invariant of the reachable states *)

Lemma clamped_ok (p d : float) :
  Amount.ge0 d = true -> Amount.ge0 (if Amount.ge0 p then p else d) = true.
Proof. intros Hd. now destruct (Amount.ge0 p) eqn:Hp. Qed.

Lemma construct_ok (account_type number id : string) (initial : float)
    (kw_rate kw_limit : option float) (account : Account) :
  Bank.construct account_type number id initial kw_rate kw_limit = Some account ->
  account_number account = number /\ parameter_ok account.
Proof.
  unfold Bank.construct. repeat case_bool_decide; intros [= <-]; simpl;
    (split; [reflexivity | now apply clamped_ok]).
Qed.

Lemma load_account_ok (adata : AccountDict) (account : Account) :
  Bank.load_account adata = Some account -> parameter_ok account.
Proof.
  unfold Bank.load_account. destruct (ad_type adata) as [t |]; [| discriminate].
  repeat case_bool_decide; intros [= <-]; simpl; now apply clamped_ok.
Qed.

Lemma add_account_number_NoDup (n : string) (c : Customer) :
  NoDup (account_numbers c) -> NoDup (account_numbers (add_account_number n c)).
Proof.
  intros Hnd. unfold add_account_number. case_bool_decide as Hin; [exact Hnd |].
  simpl. apply NoDup_app. repeat split; trivial.
  - intros x Hx Hx'. apply list_elem_of_singleton in Hx'. subst x.
    contradiction.
  - apply NoDup_singleton.
Qed.

Lemma load_customer_NoDup (cdata : CustomerDict) :
  customer_id (Bank.load_customer cdata) = cd_customer_id cdata
  /\ NoDup (account_numbers (Bank.load_customer cdata)).
Proof.
  unfold Bank.load_customer.
  generalize (default [] (cd_account_numbers cdata)). intros l.
  assert (H : forall c,
             NoDup (account_numbers c) ->
             customer_id (foldl (fun c n => add_account_number n c) c l)
               = customer_id c
             /\ NoDup (account_numbers
                         (foldl (fun c n => add_account_number n c) c l))).
  { induction l as [| n l IH]; intros c Hc; simpl; [now split |].
    destruct (IH (add_account_number n c) (add_account_number_NoDup n c Hc))
      as [Hid Hnd].
    split; [| exact Hnd]. rewrite Hid. unfold add_account_number.
    now case_bool_decide. }
  apply H. simpl. apply NoDup_nil_2.
Qed.

Lemma foldl_invariant {A B : Type} (P : A -> Prop) (f : A -> B -> A)
    (l : list B) (a : A) :
  P a -> (forall a b, P a -> P (f a b)) -> P (foldl f a l).
Proof.
  intros Ha Hf. revert a Ha. induction l as [| b l IH]; intros a Ha; simpl; auto.
Qed.

Lemma load_customers_inv (f : Files) (k : string) (c : Customer) :
  Bank.load_customers f !! k = Some c ->
  customer_id c = k /\ NoDup (account_numbers c).
Proof.
  revert k c. unfold Bank.load_customers.
  destruct (customers_json f) as [l |];
    [| intros k c; now rewrite lookup_empty].
  apply (foldl_invariant
           (fun m : gmap string Customer =>
              forall k c, m !! k = Some c ->
                customer_id c = k /\ NoDup (account_numbers c))).
  - intros k c. now rewrite lookup_empty.
  - intros m cdata Hm k c. simpl.
    destruct (decide (customer_id (Bank.load_customer cdata) = k)) as [<- | Hne].
    + rewrite lookup_insert_eq. intros [= <-].
      split; [reflexivity | apply load_customer_NoDup].
    + rewrite lookup_insert_ne by exact Hne. apply Hm.
Qed.

Lemma load_accounts_inv (f : Files) (k : string) (a : Account) :
  Bank.load_accounts f !! k = Some a ->
  account_number a = k /\ parameter_ok a.
Proof.
  revert k a. unfold Bank.load_accounts.
  destruct (accounts_json f) as [l |];
    [| intros k a; now rewrite lookup_empty].
  apply (foldl_invariant
           (fun m : gmap string Account =>
              forall k a, m !! k = Some a ->
                account_number a = k /\ parameter_ok a)).
  - intros k a. now rewrite lookup_empty.
  - intros m adata Hm k a.
    destruct (Bank.load_account adata) as [acc |] eqn:Hacc; [| apply Hm].
    destruct (decide (account_number acc = k)) as [<- | Hne].
    + rewrite lookup_insert_eq. intros [= <-].
      split; [reflexivity | exact (load_account_ok adata acc Hacc)].
    + rewrite lookup_insert_ne by exact Hne. apply Hm.
Qed.

(** What [Bank.__init__] builds is well formed, whatever the files hold. *)
Lemma init_well_formed (f : Files) : well_formed (bank (Bank.init f)).
Proof.
  unfold well_formed, Bank.init, Bank._load_data. cbn. split.
  - intros k c Hk. rewrite lookup_fmap in Hk.
    destruct (Bank.load_customers f !! k) as [c0 |] eqn:Hc0; [| discriminate].
    simpl in Hk. injection Hk as <-.
    destruct (load_customers_inv f k c0 Hc0) as [Hid Hnd].
    unfold Bank.prune. simpl. split; [exact Hid |]. split.
    + now apply NoDup_filter.
    + apply Forall_forall. intros n Hn.
      now apply list_elem_of_filter in Hn as [Hn _].
  - intros k a Hk. exact (load_accounts_inv f k a Hk).
Qed.

(** Well-formedness does not look at the log. *)
Lemma well_formed_history (b : Bank) (h : list Transaction) :
  well_formed b -> well_formed (mkBank (_customers b) (_accounts b) h).
Proof. intros H. exact H. Qed.

(** Replacing the account map by one that has at least the same keys and
    holds accounts numbered by their key, with valid parameters. *)
Lemma well_formed_accounts (b : Bank) (m : gmap string Account)
    (h : list Transaction) :
  well_formed b ->
  (forall k, is_Some (_accounts b !! k) -> is_Some (m !! k)) ->
  (forall k a, m !! k = Some a -> account_number a = k /\ parameter_ok a) ->
  well_formed (mkBank (_customers b) m h).
Proof.
  intros [Hc Ha] Hkeys Hm. split; [| exact Hm].
  intros k c Hk. destruct (Hc k c Hk) as (Hid & Hnd & Hall).
  repeat split; trivial. simpl.
  eapply Forall_impl; [exact Hall |]. intros n Hn. now apply Hkeys.
Qed.

Lemma set_balance_identity (x : float) (a : Account) :
  account_number (set_balance x a) = account_number a
  /\ (parameter_ok a -> parameter_ok (set_balance x a)).
Proof. now destruct a. Qed.

Lemma deposit_balance_only (amount : float) :
  balance_only (Account.deposit amount).
Proof.
  intros a. destruct (Amount.le0 amount) eqn:Hle.
  - rewrite deposit_refused by exact Hle. exists (balance a). now destruct a.
  - rewrite deposit_accepted by exact Hle. now eexists.
Qed.

Lemma withdraw_balance_only (amount : float) :
  balance_only (Account.withdraw amount).
Proof.
  intros a. destruct (fst (Account.withdraw amount a)) eqn:Hok.
  - destruct (withdraw_accepted_above_floor amount a Hok) as [-> _].
    now eexists.
  - rewrite withdraw_refused_unchanged by exact Hok.
    exists (balance a). now destruct a.
Qed.

Lemma on_account_well_formed (k : string) (m : Account -> bool * Account)
    (b : Bank) :
  balance_only m -> well_formed b -> well_formed (snd (Bank.on_account k m b)).
Proof.
  intros Hm Hb. unfold Bank.on_account.
  destruct (_accounts b !! k) as [a |] eqn:Hk; [| exact Hb].
  destruct (Hm a) as [x Hx]. destruct (m a) as [r a']. simpl in *. subst a'.
  apply well_formed_accounts; [exact Hb | |].
  - intros k' Hk'. destruct (decide (k = k')) as [<- | Hne].
    + rewrite lookup_insert_eq. eauto.
    + now rewrite lookup_insert_ne.
  - intros k' a'. destruct (decide (k = k')) as [<- | Hne].
    + rewrite lookup_insert_eq. intros [= <-].
      destruct Hb as [_ Ha]. destruct (Ha k a Hk) as [Hn Hp].
      destruct (set_balance_identity x a) as [Hn' Hp'].
      split; [congruence | auto].
    + rewrite lookup_insert_ne by exact Hne. destruct Hb as [_ Ha]. apply Ha.
Qed.

Lemma add_customer_well_formed (id nm addr : string) (s : State) :
  well_formed (bank s) ->
  well_formed (bank (snd (Bank.add_customer (Customer_init id nm addr) s))).
Proof.
  intros Hs. unfold Bank.add_customer. simpl.
  case_bool_decide; [exact Hs |].
  destruct (negb _ || negb _); [exact Hs |]. simpl.
  destruct Hs as [Hc Ha]. split; [| exact Ha].
  intros k c. simpl. destruct (decide (id = k)) as [<- | Hne].
  - rewrite lookup_insert_eq. intros [= <-]. simpl.
    repeat split; [apply NoDup_nil_2 | apply Forall_nil_2].
  - rewrite lookup_insert_ne by exact Hne. apply Hc.
Qed.

Lemma remove_customer_well_formed (id : string) (s : State) :
  well_formed (bank s) ->
  well_formed (bank (snd (Bank.remove_customer id s))).
Proof.
  intros Hs. unfold Bank.remove_customer.
  destruct (_customers (bank s) !! id) as [c |]; [| exact Hs].
  destruct (account_numbers c); [| exact Hs]. simpl.
  destruct Hs as [Hc Ha]. split; [| exact Ha].
  intros k c'. simpl. intros [_ Hk]%lookup_delete_Some. now apply Hc.
Qed.

Lemma create_account_well_formed (id account_type : string) (initial : float)
    (kw_rate kw_limit : option float) (uuid4 : string) (s : State) :
  well_formed (bank s) ->
  well_formed
    (bank (snd (Bank.create_account id account_type initial kw_rate kw_limit
                  uuid4 s))).
Proof.
  intros Hs. unfold Bank.create_account.
  destruct (_customers (bank s) !! id) as [customer |] eqn:Hcu; [| exact Hs].
  destruct (Bank.construct _ _ _ _ _ _) as [account |] eqn:Hk; [| exact Hs].
  apply construct_ok in Hk as [Hnum Hpar]. simpl.
  set (number := substring 0 8 uuid4) in *.
  destruct Hs as [Hc Ha]. split; simpl.
  - assert (Hmono : forall l,
               Forall (fun n => is_Some (_accounts (bank s) !! n)) l ->
               Forall (fun n => is_Some (<[number := account]>
                                           (_accounts (bank s)) !! n)) l).
    { intros l Hl. eapply Forall_impl; [exact Hl |]. intros n Hn.
      destruct (decide (number = n)) as [<- | Hne].
      - rewrite lookup_insert_eq. eauto.
      - now rewrite lookup_insert_ne. }
    intros k c. destruct (decide (id = k)) as [<- | Hne].
    + rewrite lookup_insert_eq. intros [= <-].
      destruct (Hc id customer Hcu) as (Hid & Hnd & Hall).
      split; [unfold add_account_number; now case_bool_decide |].
      split; [now apply add_account_number_NoDup |].
      unfold add_account_number. case_bool_decide; simpl; [now apply Hmono |].
      apply Forall_app. split; [now apply Hmono |].
      apply Forall_singleton. rewrite lookup_insert_eq. eauto.
    + rewrite lookup_insert_ne by exact Hne. intros Hk.
      destruct (Hc k c Hk) as (Hid & Hnd & Hall).
      repeat split; trivial. now apply Hmono.
  - intros k a. destruct (decide (number = k)) as [<- | Hne].
    + rewrite lookup_insert_eq. intros [= <-]. now split.
    + rewrite lookup_insert_ne by exact Hne. apply Ha.
Qed.

Lemma deposit_well_formed (number : string) (amount : float) (now : string)
    (s : State) :
  well_formed (bank s) ->
  well_formed (bank (snd (Bank.deposit number amount now s))).
Proof.
  intros Hs. unfold Bank.deposit.
  destruct (_accounts (bank s) !! number); [| exact Hs].
  pose proof (on_account_well_formed number _ _
                (deposit_balance_only amount) Hs) as H1.
  destruct (Bank.on_account number _ (bank s)) as [ok b1].
  destruct ok; exact H1.
Qed.

Lemma withdraw_well_formed (number : string) (amount : float) (now : string)
    (s : State) :
  well_formed (bank s) ->
  well_formed (bank (snd (Bank.withdraw number amount now s))).
Proof.
  intros Hs. unfold Bank.withdraw.
  destruct (_accounts (bank s) !! number); [| exact Hs].
  pose proof (on_account_well_formed number _ _
                (withdraw_balance_only amount) Hs) as H1.
  destruct (Bank.on_account number _ (bank s)) as [ok b1].
  destruct ok; exact H1.
Qed.

Lemma transfer_funds_well_formed (a b : string) (amount : float) (now : string)
    (s : State) :
  well_formed (bank s) ->
  well_formed (bank (snd (Bank.transfer_funds a b amount now s))).
Proof.
  intros Hs. unfold Bank.transfer_funds.
  destruct (_accounts (bank s) !! a); [| exact Hs].
  destruct (_accounts (bank s) !! b); [| exact Hs].
  destruct (Amount.le0 amount); [exact Hs |].
  pose proof (on_account_well_formed a _ _
                (withdraw_balance_only amount) Hs) as H1.
  destruct (Bank.on_account a _ (bank s)) as [withdrawn b1].
  destruct withdrawn; [| exact H1]. simpl in *.
  pose proof (on_account_well_formed b _ _
                (deposit_balance_only amount) H1) as H2.
  destruct (Bank.on_account b _ b1) as [deposited b2].
  destruct deposited; [exact H2 |]. simpl in *.
  pose proof (on_account_well_formed a _ _
                (deposit_balance_only amount) H2) as H3.
  destruct (Bank.on_account a _ b2) as [r b3]. exact H3.
Qed.

Lemma apply_all_interest_well_formed (now : string) (s : State) :
  well_formed (bank s) ->
  well_formed (bank (Bank.apply_all_interest now s)).
Proof.
  intros Hs.
  unfold Bank.apply_all_interest, Bank.saved, Bank.append_history,
    Bank.set_accounts.
  cbn [bank _customers _accounts _transaction_history].
  apply (well_formed_accounts (bank s)); [exact Hs | |].
  - intros k [a Hk]. rewrite lookup_fmap, Hk. simpl. eauto.
  - intros k a'. rewrite lookup_fmap.
    destruct (_accounts (bank s) !! k) as [a |] eqn:Hk; [| discriminate].
    simpl. intros [= <-]. destruct Hs as [_ Ha].
    destruct (Ha k a Hk) as [Hn Hp]. now destruct a.
Qed.

(** Every reachable state is well formed. *)
Theorem reachable_well_formed (s : State) :
  reachable s -> well_formed (bank s).
Proof.
  induction 1;
    auto using init_well_formed, add_customer_well_formed,
      remove_customer_well_formed, create_account_well_formed,
      deposit_well_formed, withdraw_well_formed, transfer_funds_well_formed,
      apply_all_interest_well_formed.
Qed.

(** X9. On every reachable state a save followed by a load gives back the
    customers and the accounts, and an empty log. *)
Theorem load_after_save_reachable (s : State) :
  reachable s ->
  bank (Bank.init (Bank._save_data (bank s)))
    = mkBank (_customers (bank s)) (_accounts (bank s)) [].
Proof.
  intros Hs. apply reachable_well_formed in Hs.
  destruct (load_after_save_restores_maps (bank s) Hs) as [Hc Ha].
  pose proof (load_after_save_log_empty (bank s)) as Hh.
  destruct (bank (Bank.init (Bank._save_data (bank s)))).
  simpl in *. now subst.
Qed.

(** The bank of [logged_state]: the account holds 100 and the log holds the
    deposit. *)
Lemma logged_state_bank :
  bank logged_state
    = mkBank {[ "123456789" := alice ]} {[ "0a1b2c3d" := sample_savings ]}
        [Tx_deposit "0a1b2c3d" 100 "2024-01-01T00:00:00"].
Proof. vm_compute. reflexivity. Qed.

(** C1. Loading after a save does not give the state back.  After a first run
    that ends on a deposit, the state is reachable and saved, the third file
    holds the record of the deposit, and the bank that [Bank.__init__] builds
    from the files has an empty log: it is not the bank that was saved. *)
Theorem load_after_save_loses_log :
  reachable logged_state
  /\ committed logged_state
  /\ transactions_json (files logged_state)
       = Some [Tx_deposit "0a1b2c3d" 100 "2024-01-01T00:00:00"]
  /\ history (Bank.init (files logged_state)) = []
  /\ bank (Bank.init (files logged_state)) <> bank logged_state.
Proof.
  split; [do 3 constructor; apply reach_init |].
  split; [reflexivity |]. split; [reflexivity |]. split; [reflexivity |].
  intros H. apply (f_equal _transaction_history) in H.
  vm_compute in H. discriminate.
Qed.

(** ** Scenarios *)

(** Savings, 100 at 0.05: a withdrawal of 150 is refused and changes nothing;
    interest brings the balance to 105; a deposit of -5 is refused. *)
Example scenario_savings_run :
  balance_of scenario_savings "0a1b2c3d" = Some 100%float
  /\ Bank.withdraw "0a1b2c3d" 150 "t1" scenario_savings
       = (false, scenario_savings)
  /\ balance_of (Bank.apply_all_interest "t2" scenario_savings) "0a1b2c3d"
       = Some 105%float
  /\ Bank.deposit "0a1b2c3d" (-5) "t3"
       (Bank.apply_all_interest "t2" scenario_savings)
     = (false, Bank.apply_all_interest "t2" scenario_savings).
Proof. repeat split; vm_compute; reflexivity. Qed.

(** Current, 0 with an overdraft limit of 50: a withdrawal of 50 is accepted
    and leaves -50; a further withdrawal of 0.01 is refused. *)
Example scenario_current_run :
  let '(ok, s1) := Bank.withdraw "feedc0de" 50 "t1" scenario_current in
  ok = true
  /\ balance_of s1 "feedc0de" = Some (-50)%float
  /\ Bank.withdraw "feedc0de" 0.01 "t2" s1 = (false, s1).
Proof. repeat split; vm_compute; reflexivity. Qed.

(** A transfer of 100 out of a savings account of 50: refused, the state is
    as before, nothing is logged. *)
Example scenario_transfer_refused :
  let s := snd (Bank.withdraw "0a1b2c3d" 50 "t0" scenario_savings) in
  let s1 := snd (Bank.create_account "123456789" "current" 0 None None
                   "feedc0de-0000-4000-8000-000000000000" s) in
  balance_of s1 "0a1b2c3d" = Some 50%float
  /\ Bank.transfer_funds "0a1b2c3d" "feedc0de" 100 "t1" s1 = (false, s1).
Proof. repeat split; vm_compute; reflexivity. Qed.

(** An account opened with -5 is below its floor from the start. *)
Example negative_opening_balance :
  (below_floor <$>
     fst (Bank.create_account "123456789" "savings" (-5) None None
            "c0ffee11-0000-4000-8000-000000000000" first_customer))
    = Some true.
Proof. vm_compute. reflexivity. Qed.

(** [add_customer] on the state holding customer 123456789: a short id and
    the id already present are refused, a new id of nine digits is accepted. *)
Example add_customer_run :
  Bank.add_customer (Customer_init "12345" "C" "Z") first_customer
    = (false, first_customer)
  /\ Bank.add_customer (Customer_init "12345678x" "C" "Z") first_customer
    = (false, first_customer)
  /\ Bank.add_customer (Customer_init "123456789" "C" "Z") first_customer
    = (false, first_customer)
  /\ fst (Bank.add_customer (Customer_init "555555555" "C" "Z") first_customer)
    = true.
Proof. repeat split; vm_compute; reflexivity. Qed.

(** The sample states are states of a run of the bank. *)
Lemma sample_state_reachable : reachable sample_state.
Proof.
  replace sample_state
    with (snd (Bank.create_account "123456789" "savings" 100 (Some 0.1%float)
                 None "0a1b2c3d-0000-4000-8000-000000000000" first_customer))
    by (vm_compute; reflexivity).
  do 2 constructor. apply reach_init.
Qed.

Lemma small_state_reachable : reachable small_state.
Proof.
  replace small_state
    with (snd (Bank.create_account "123456789" "savings" 0.9 None
                 None "0a1b2c3d-0000-4000-8000-000000000000" first_customer))
    by (vm_compute; reflexivity).
  do 2 constructor. apply reach_init.
Qed.

Lemma two_accounts_reachable : reachable two_accounts.
Proof.
  replace two_accounts
    with (snd (Bank.create_account "987654321" "current" 0 None (Some 50%float)
                 "feedc0de-0000-4000-8000-000000000000"
                 (snd (Bank.add_customer (Customer_init "987654321" "B" "Y")
                         sample_state))))
    by (vm_compute; reflexivity).
  do 2 constructor. apply sample_state_reachable.
Qed.

(** * Further properties of the ledger *)

(** ** Deposits and withdrawals through the bank *)

(** The bank after an accepted operation on the account under [number]. *)
Lemma deposit_cases (number : string) (amount : float) (now : string)
    (s : State) :
  Bank.deposit number amount now s = (false, s)
  \/ exists a,
       _accounts (bank s) !! number = Some a
       /\ Amount.le0 amount = false
       /\ Bank.deposit number amount now s
          = (true,
             Bank.saved
               (mkBank (_customers (bank s))
                  (<[number := set_balance (balance a + amount)%float a]>
                     (_accounts (bank s)))
                  (_transaction_history (bank s)
                     ++ [Tx_deposit number amount now]))).
Proof.
  unfold Bank.deposit.
  destruct (_accounts (bank s) !! number) as [a |] eqn:Ha; [| now left].
  rewrite (on_account_some number _ _ a Ha).
  destruct (Amount.le0 amount) eqn:Hle.
  - left. rewrite deposit_refused by exact Hle. simpl.
    rewrite (set_accounts_same _ _ _ Ha). now rewrite unsaved_same.
  - right. exists a. rewrite deposit_accepted by exact Hle. now repeat split.
Qed.

Lemma withdraw_cases (number : string) (amount : float) (now : string)
    (s : State) :
  Bank.withdraw number amount now s = (false, s)
  \/ exists a,
       _accounts (bank s) !! number = Some a
       /\ fst (Account.withdraw amount a) = true
       /\ Bank.withdraw number amount now s
          = (true,
             Bank.saved
               (mkBank (_customers (bank s))
                  (<[number := set_balance (balance a - amount)%float a]>
                     (_accounts (bank s)))
                  (_transaction_history (bank s)
                     ++ [Tx_withdraw number amount now]))).
Proof.
  unfold Bank.withdraw.
  destruct (_accounts (bank s) !! number) as [a |] eqn:Ha; [| now left].
  rewrite (on_account_some number _ _ a Ha).
  destruct (fst (Account.withdraw amount a)) eqn:Hw.
  - right. exists a.
    destruct (withdraw_accepted_above_floor amount a Hw) as [-> _].
    now repeat split.
  - left. rewrite (withdraw_refused_unchanged amount a Hw).
    rewrite (set_accounts_same _ _ _ Ha). now rewrite unsaved_same.
Qed.

(** X1. [Bank.deposit] succeeds exactly when the account exists and the amount
    fails the test [amount <= 0].  A refused deposit leaves the bank and the
    files as they were; an accepted one adds the amount to the balance of that
    account alone, appends one deposit record and saves. *)
Theorem bank_deposit_outcome (number : string) (amount : float) (now : string)
    (s : State) :
  let '(ok, s') := Bank.deposit number amount now s in
  (ok = true <->
     is_Some (_accounts (bank s) !! number) /\ Amount.le0 amount = false)
  /\ (ok = false -> s' = s)
  /\ (ok = true ->
      balance_of s' number
        = (fun x => x + amount)%float <$> balance_of s number
      /\ (forall k, k <> number ->
            _accounts (bank s') !! k = _accounts (bank s) !! k)
      /\ _customers (bank s') = _customers (bank s)
      /\ history s' = history s ++ [Tx_deposit number amount now]
      /\ committed s').
Proof.
  destruct (deposit_cases number amount now s)
    as [Hfail | (a & Ha & Hle & Hok)].
  - rewrite Hfail. split; [| split; [reflexivity | discriminate]].
    split; [discriminate |]. intros [[a Ha] Hle]. exfalso.
    revert Hfail. unfold Bank.deposit. rewrite Ha.
    rewrite (on_account_some number _ _ a Ha), deposit_accepted by exact Hle.
    discriminate.
  - rewrite Hok. split; [| split; [discriminate |]].
    + split; [intros _; split; [eauto | exact Hle] | reflexivity].
    + intros _. unfold balance_of. simpl. rewrite Ha, lookup_insert_eq. simpl.
      rewrite balance_set_balance. repeat split.
      intros k Hk. now rewrite lookup_insert_ne by congruence.
Qed.

(** X2. [Bank.withdraw] succeeds exactly when the account exists and its
    [withdraw] accepts the amount.  A refused withdrawal leaves the bank and
    the files as they were; an accepted one takes the amount off the balance
    of that account alone, which is then not below its floor, appends one
    withdrawal record and saves. *)
Theorem bank_withdraw_outcome (number : string) (amount : float) (now : string)
    (s : State) :
  let '(ok, s') := Bank.withdraw number amount now s in
  (ok = true <->
     exists a, _accounts (bank s) !! number = Some a
               /\ fst (Account.withdraw amount a) = true)
  /\ (ok = false -> s' = s)
  /\ (ok = true ->
      balance_of s' number
        = (fun x => x - amount)%float <$> balance_of s number
      /\ below_floor <$> _accounts (bank s') !! number = Some false
      /\ (forall k, k <> number ->
            _accounts (bank s') !! k = _accounts (bank s) !! k)
      /\ _customers (bank s') = _customers (bank s)
      /\ history s' = history s ++ [Tx_withdraw number amount now]
      /\ committed s').
Proof.
  destruct (withdraw_cases number amount now s)
    as [Hfail | (a & Ha & Hw & Hok)].
  - rewrite Hfail. split; [| split; [reflexivity | discriminate]].
    split; [discriminate |]. intros (a & Ha & Hw). exfalso.
    revert Hfail. unfold Bank.withdraw. rewrite Ha.
    rewrite (on_account_some number _ _ a Ha), Hw. discriminate.
  - rewrite Hok. split; [| split; [discriminate |]].
    + split; [intros _; eauto | reflexivity].
    + intros _. unfold balance_of. simpl. rewrite Ha, !lookup_insert_eq. simpl.
      rewrite balance_set_balance.
      destruct (withdraw_accepted_above_floor amount a Hw) as [_ ->].
      repeat split. intros k Hk. now rewrite lookup_insert_ne by congruence.
Qed.

(** ** Refused and accepted account creations *)

(** X3. [create_account] returns [None] exactly when the customer does not exist
    or the account type is neither ["savings"] nor ["current"], and then the
    bank and the files are as they were.  An account that is created is held
    by the customer asked for, its number is in the list of that customer, and
    nothing is logged. *)
Theorem create_account_outcome (id account_type : string) (initial : float)
    (kw_rate kw_limit : option float) (uuid4 : string) (s : State) :
  let '(r, s') :=
    Bank.create_account id account_type initial kw_rate kw_limit uuid4 s in
  (r = None <->
     _customers (bank s) !! id = None
     \/ (account_type <> "savings" /\ account_type <> "current"))
  /\ (r = None -> s' = s)
  /\ (forall account, r = Some account ->
        account_holder_id account = id
        /\ (exists customer,
              _customers (bank s') !! id = Some customer
              /\ substring 0 8 uuid4 ∈ account_numbers customer)
        /\ (forall k, k <> id ->
              _customers (bank s') !! k = _customers (bank s) !! k)
        /\ history s' = history s
        /\ committed s').
Proof.
  unfold Bank.create_account.
  destruct (_customers (bank s) !! id) as [customer |] eqn:Hc.
  - unfold Bank.construct. repeat case_bool_decide; subst; simpl.
    + split; [| split; [discriminate |]].
      * split; [discriminate |]. intros [? | [? _]]; congruence.
      * intros account [= <-]. simpl. split; [reflexivity |]. split.
        { eexists. split; [apply lookup_insert_eq |].
          unfold add_account_number. case_bool_decide; simpl; [assumption |].
          apply elem_of_app. right. now apply list_elem_of_singleton. }
        repeat split. intros k Hk. now rewrite lookup_insert_ne by congruence.
    + split; [| split; [discriminate |]].
      * split; [discriminate |]. intros [? | [_ ?]]; congruence.
      * intros account [= <-]. simpl. split; [reflexivity |]. split.
        { eexists. split; [apply lookup_insert_eq |].
          unfold add_account_number. case_bool_decide; simpl; [assumption |].
          apply elem_of_app. right. now apply list_elem_of_singleton. }
        repeat split. intros k Hk. now rewrite lookup_insert_ne by congruence.
    + split; [| split; [reflexivity | discriminate]].
      split; [intros _; right; now split | reflexivity].
  - split; [| split; [reflexivity | discriminate]].
    split; [intros _; now left | reflexivity].
Qed.

(** ** The account numbers of a customer *)

Lemma list_remove_absent (n : string) (l : list string) :
  n ∉ l -> list_remove n l = l.
Proof.
  induction l as [| x l IH]; [reflexivity |]. intros Hn. simpl.
  apply not_elem_of_cons in Hn as [Hx Hl].
  rewrite bool_decide_eq_false_2 by congruence. now rewrite IH.
Qed.

Lemma list_remove_last (n : string) (l : list string) :
  n ∉ l -> list_remove n (l ++ [n]) = l.
Proof.
  induction l as [| x l IH]; intros Hn; simpl.
  - now rewrite bool_decide_eq_true_2.
  - apply not_elem_of_cons in Hn as [Hx Hl].
    rewrite bool_decide_eq_false_2 by congruence. now rewrite IH.
Qed.

Lemma list_remove_length (n : string) (l : list string) :
  n ∈ l -> S (length (list_remove n l)) = length l.
Proof.
  induction l as [| x l IH]; intros Hn; [now apply elem_of_nil in Hn |].
  simpl. case_bool_decide as Hx; [reflexivity |]. simpl.
  apply elem_of_cons in Hn as [-> | Hn]; [contradiction |]. now rewrite IH.
Qed.

Lemma list_remove_other (n m : string) (l : list string) :
  m <> n -> m ∈ list_remove n l <-> m ∈ l.
Proof.
  intros Hm. induction l as [| x l IH]; [reflexivity |]. simpl.
  case_bool_decide as Hx.
  - subst x. rewrite elem_of_cons. split; [now right | intros [? | ?]; congruence].
  - rewrite !elem_of_cons, IH. reflexivity.
Qed.

Lemma list_remove_NoDup (n : string) (l : list string) :
  NoDup l -> n ∉ list_remove n l.
Proof.
  induction 1 as [| x l Hx Hl IH]; simpl; [apply not_elem_of_nil |].
  case_bool_decide as Hxn; [now subst x |].
  apply not_elem_of_cons. split; [congruence | exact IH].
Qed.

Lemma remove_account_number_absent_after_add (n : string) (c : Customer) :
  n ∉ account_numbers c ->
  remove_account_number n (add_account_number n c) = c.
Proof.
  intros Hn. unfold add_account_number.
  rewrite bool_decide_eq_false_2 by assumption.
  unfold remove_account_number. simpl.
  rewrite bool_decide_eq_true_2
    by (apply elem_of_app; right; now apply list_elem_of_singleton).
  rewrite list_remove_last by assumption. now destruct c.
Qed.

(** X4. [add_account_number] behaves as the insertion into an ordered set: the
    number is in the list afterwards, the numbers already there keep their
    place, nothing else enters, a list without duplicates stays so, and a
    second call changes nothing. *)
Theorem add_account_number_ordered_set (n : string) (c : Customer) :
  let c' := add_account_number n c in
  n ∈ account_numbers c'
  /\ (forall m, m ∈ account_numbers c' <-> m = n \/ m ∈ account_numbers c)
  /\ (exists l, account_numbers c' = account_numbers c ++ l)
  /\ (NoDup (account_numbers c) -> NoDup (account_numbers c'))
  /\ add_account_number n c' = c'
  /\ (customer_id c', name c', address c') = (customer_id c, name c, address c).
Proof.
  simpl. destruct (decide (n ∈ account_numbers c)) as [Hin | Hin].
  - assert (E : add_account_number n c = c)
      by (unfold add_account_number; now rewrite bool_decide_eq_true_2).
    rewrite !E.
    split; [exact Hin |]. split; [intros m; split; [auto | now intros [-> | ?]] |].
    split; [exists []; now rewrite app_nil_r |]. now repeat split.
  - assert (E : add_account_number n c
                = mkCustomer (customer_id c) (name c) (address c)
                    (account_numbers c ++ [n]))
      by (unfold add_account_number; now rewrite bool_decide_eq_false_2).
    rewrite E. simpl.
    assert (Hlast : n ∈ account_numbers c ++ [n])
      by (apply elem_of_app; right; now apply list_elem_of_singleton).
    split; [exact Hlast |]. split.
    { intros m. rewrite elem_of_app, list_elem_of_singleton. tauto. }
    split; [now eexists |]. split.
    { intros Hnd. apply NoDup_app. repeat split; trivial.
      - intros x Hx Hx'. apply list_elem_of_singleton in Hx'. now subst x.
      - apply NoDup_singleton. }
    split; [| reflexivity]. unfold add_account_number. simpl.
    now rewrite bool_decide_eq_true_2.
Qed.

(** X5. [remove_account_number] changes nothing when the number is not in the
    list and undoes an [add_account_number] of a number that was not there;
    it takes out one occurrence and no more, the first, so that a list
    without duplicates no longer holds the number, and it keeps every other
    number. *)
Theorem remove_account_number_once (n : string) (c : Customer) :
  (n ∉ account_numbers c ->
     remove_account_number n c = c
     /\ remove_account_number n (add_account_number n c) = c)
  /\ (n ∈ account_numbers c ->
      S (length (account_numbers (remove_account_number n c)))
        = length (account_numbers c))
  /\ (NoDup (account_numbers c) ->
      n ∉ account_numbers (remove_account_number n c))
  /\ (forall m, m <> n ->
        m ∈ account_numbers (remove_account_number n c)
        <-> m ∈ account_numbers c).
Proof.
  repeat split.
  - unfold remove_account_number. now rewrite bool_decide_eq_false_2.
  - unfold add_account_number. rewrite bool_decide_eq_false_2 by assumption.
    unfold remove_account_number. simpl.
    rewrite bool_decide_eq_true_2
      by (apply elem_of_app; right; now apply list_elem_of_singleton).
    rewrite list_remove_last by assumption. now destruct c.
  - intros Hin. unfold remove_account_number.
    rewrite bool_decide_eq_true_2 by assumption. simpl.
    now apply list_remove_length.
  - intros Hnd. unfold remove_account_number. case_bool_decide as Hin; simpl.
    + now apply list_remove_NoDup.
    + exact Hin.
  - unfold remove_account_number. case_bool_decide; simpl; [| auto].
    now apply list_remove_other.
  - unfold remove_account_number. case_bool_decide; simpl; [| auto].
    now apply list_remove_other.
Qed.

(** With a number listed twice, one call of [remove_account_number] leaves
    the second occurrence. *)
Example remove_account_number_duplicate :
  account_numbers
    (remove_account_number "0a1b2c3d"
       (mkCustomer "123456789" "A" "X" ["0a1b2c3d"; "feedc0de"; "0a1b2c3d"]))
    = ["feedc0de"; "0a1b2c3d"].
Proof. reflexivity. Qed.

(** ** The accounts of a customer *)

Lemma omap_lookup_numbers (m : gmap string Account) (l : list string) :
  Forall (fun n => is_Some (m !! n)) l ->
  (forall k a, m !! k = Some a -> account_number a = k) ->
  account_number <$> omap (fun n => m !! n) l = l.
Proof.
  intros Hall Hkey. induction Hall as [| n l [a Ha] Hl IH]; [reflexivity |].
  cbn. rewrite Ha. cbn. f_equal; [now apply Hkey | exact IH].
Qed.

Lemma omap_length_le {A B : Type} (f : A -> option B) (l : list A) :
  length (omap f l) <= length l.
Proof.
  induction l as [| x l IH]; [reflexivity |].
  cbn. destruct (f x); cbn; [apply le_n_S, IH | apply Nat.le_le_succ_r, IH].
Qed.

(** [get_customer_accounts] gives the empty list for an unknown customer;
    for a known one it gives the accounts stored under the numbers of the
    customer's list, and no other, a number without an account being passed
    over. *)
Theorem get_customer_accounts_lists (id : string) (s : State) :
  (_customers (bank s) !! id = None -> Bank.get_customer_accounts id s = [])
  /\ (forall customer,
        _customers (bank s) !! id = Some customer ->
        (forall a,
           a ∈ Bank.get_customer_accounts id s
           <-> exists n, n ∈ account_numbers customer
                         /\ _accounts (bank s) !! n = Some a)
        /\ length (Bank.get_customer_accounts id s)
           <= length (account_numbers customer)).
Proof.
  unfold Bank.get_customer_accounts. split.
  - now intros ->.
  - intros customer ->. split; [| apply omap_length_le].
    intros a. apply list_elem_of_omap.
Qed.

(** X6. In a reachable state no number is passed over: the accounts that
    [get_customer_accounts] gives carry, in order, exactly the numbers of the
    customer's list. *)
Theorem get_customer_accounts_reachable (id : string) (s : State)
    (customer : Customer) :
  reachable s ->
  _customers (bank s) !! id = Some customer ->
  account_number <$> Bank.get_customer_accounts id s = account_numbers customer.
Proof.
  intros Hs Hc. destruct (reachable_well_formed s Hs) as [Hcus Hacc].
  unfold Bank.get_customer_accounts. rewrite Hc.
  destruct (Hcus id customer Hc) as (_ & _ & Hall).
  apply omap_lookup_numbers; [exact Hall |].
  intros k a Hk. now destruct (Hacc k a Hk).
Qed.

Lemma logged_state_reachable : reachable logged_state.
Proof. do 3 constructor. apply reach_init. Qed.

(** The customer of the first run and its one account. *)
Lemma get_customer_accounts_reachable_witness :
  account_number <$> Bank.get_customer_accounts "123456789" logged_state
    = account_numbers alice.
Proof.
  exact (get_customer_accounts_reachable "123456789" logged_state alice
           logged_state_reachable eq_refl).
Defined.

(** ** What a load gives *)

(** X7. Whatever the two files hold, [Bank.__init__] builds a bank in which every
    customer and every account is stored under its own id, no customer lists
    a number twice or a number without an account, every interest rate and
    overdraft limit passes [>= 0], and the log is empty; the files are not
    written.  A missing customer file gives no customer, a missing account
    file no account and empty account lists. *)
Theorem load_data_repairs (f : Files) :
  let s := Bank.init f in
  well_formed (bank s)
  /\ history s = []
  /\ files s = f
  /\ (customers_json f = None -> _customers (bank s) = ∅)
  /\ (accounts_json f = None ->
      _accounts (bank s) = ∅
      /\ forall k c, _customers (bank s) !! k = Some c ->
                     account_numbers c = []).
Proof.
  split; [apply init_well_formed |].
  split; [reflexivity |]. split; [reflexivity |].
  unfold Bank.init, Bank._load_data, Bank.load_customers, Bank.load_accounts.
  split.
  - intros ->. cbn. apply fmap_empty.
  - intros ->. cbn. split; [reflexivity |].
    intros k c Hk. rewrite lookup_fmap in Hk.
    destruct (_ !! k) as [c0 |]; [| discriminate].
    injection Hk as <-. unfold Bank.prune. simpl.
    induction (account_numbers c0) as [| n l IH]; [reflexivity |].
    rewrite filter_cons_False; [exact IH |].
    rewrite lookup_empty. now intros [? ?].
Qed.

(** X8. What [Bank.__init__] has built from any files comes back unchanged from
    a save followed by a load. *)
Theorem reload_is_stable (f : Files) :
  bank (Bank.init (Bank._save_data (bank (Bank.init f)))) = bank (Bank.init f).
Proof.
  destruct (load_after_save_restores_maps _ (init_well_formed f)) as [Hc Ha].
  pose proof (load_after_save_log_empty (bank (Bank.init f))) as Hh.
  destruct (bank (Bank.init (Bank._save_data (bank (Bank.init f))))) as [c a h].
  simpl in Hc, Ha, Hh. subst c a h. reflexivity.
Qed.

(** The bank of the first run, saved and loaded: the customer and the account
    are back, the log is empty. *)
Lemma load_after_save_reachable_witness :
  bank (Bank.init (Bank._save_data (bank logged_state)))
    = mkBank (_customers (bank logged_state)) (_accounts (bank logged_state)) [].
Proof.
  exact (load_after_save_reachable logged_state logged_state_reachable).
Defined.

(** ** Invariants of the reachable states *)

(** X10. In every state reached from a load through the methods of [Bank], every
    customer and every account is stored under its own id, the account list of
    a customer has no duplicate and names only accounts that exist, and every
    interest rate and overdraft limit passes [>= 0]. *)
Theorem reachable_state_invariant (s : State) :
  reachable s ->
  (forall k c,
     _customers (bank s) !! k = Some c ->
     customer_id c = k
     /\ NoDup (account_numbers c)
     /\ forall n, n ∈ account_numbers c -> is_Some (_accounts (bank s) !! n))
  /\ (forall k a,
        _accounts (bank s) !! k = Some a ->
        account_number a = k
        /\ match a with
           | SavingsAccount _ _ _ r => PrimFloat.leb 0 r = true
           | CurrentAccount _ _ _ l => PrimFloat.leb 0 l = true
           end).
Proof.
  intros Hs. destruct (reachable_well_formed s Hs) as [Hc Ha]. split.
  - intros k c Hk. destruct (Hc k c Hk) as (Hid & Hnd & Hall).
    repeat split; trivial. now apply Forall_forall.
  - intros k a Hk. destruct (Ha k a Hk) as [Hn Hp]. split; [exact Hn |].
    now destruct a.
Qed.

Lemma reachable_state_invariant_witness :
  (forall k c,
     _customers (bank logged_state) !! k = Some c ->
     customer_id c = k
     /\ NoDup (account_numbers c)
     /\ forall n, n ∈ account_numbers c ->
                  is_Some (_accounts (bank logged_state) !! n))
  /\ (forall k a,
        _accounts (bank logged_state) !! k = Some a ->
        account_number a = k
        /\ match a with
           | SavingsAccount _ _ _ r => PrimFloat.leb 0 r = true
           | CurrentAccount _ _ _ l => PrimFloat.leb 0 l = true
           end).
Proof.
  exact (reachable_state_invariant logged_state logged_state_reachable).
Defined.

(** ** Files and log across the calls *)

Lemma add_customer_cases (customer : Customer) (s : State) :
  Bank.add_customer customer s = (false, s)
  \/ Bank.add_customer customer s
     = (true,
        Bank.saved
          (mkBank (<[customer_id customer := customer]> (_customers (bank s)))
             (_accounts (bank s)) (_transaction_history (bank s)))).
Proof.
  unfold Bank.add_customer. case_bool_decide; [now left |].
  destruct (negb _ || negb _); [now left | now right].
Qed.

Lemma remove_customer_cases (id : string) (s : State) :
  Bank.remove_customer id s = (false, s)
  \/ Bank.remove_customer id s
     = (true,
        Bank.saved
          (mkBank (delete id (_customers (bank s)))
             (_accounts (bank s)) (_transaction_history (bank s)))).
Proof.
  unfold Bank.remove_customer.
  destruct (_customers (bank s) !! id) as [c |]; [| now left].
  destruct (account_numbers c); [now right | now left].
Qed.

Lemma create_account_cases (id account_type : string) (initial : float)
    (kw_rate kw_limit : option float) (uuid4 : string) (s : State) :
  Bank.create_account id account_type initial kw_rate kw_limit uuid4 s
    = (None, s)
  \/ exists customer account,
       Bank.create_account id account_type initial kw_rate kw_limit uuid4 s
         = (Some account,
            with_new_account id (substring 0 8 uuid4) customer account s).
Proof.
  unfold Bank.create_account.
  destruct (_customers (bank s) !! id) as [customer |]; [| now left].
  destruct (Bank.construct _ _ _ _ _ _) as [account |]; [| now left].
  right. now exists customer, account.
Qed.

Lemma delete_account_cases (selected : list string) (s : State) :
  AccountManagementView.delete_account selected s = s
  \/ exists customers acc_no,
       AccountManagementView.delete_account selected s
         = Bank.saved
             (mkBank customers (delete acc_no (_accounts (bank s)))
                (_transaction_history (bank s))).
Proof.
  unfold AccountManagementView.delete_account.
  destruct selected as [| acc_no rest]; [now left |].
  destruct (_accounts (bank s) !! acc_no) as [acc |]; [| now left].
  right. now eexists _, acc_no.
Qed.

(** A call leaves the state as it is or ends on [_save_data], and it appends
    at most one record. *)
Lemma step_saved_or_same (s s' : State) :
  step s s' ->
  (s' = s \/ exists b, s' = Bank.saved b) /\ log_step s s'.
Proof.
  assert (Hsame : (s = s \/ exists b, s = Bank.saved b) /\ log_step s s)
    by (split; now left).
  assert (Hsaved : forall b,
            _transaction_history b = history s
            \/ (exists t, _transaction_history b = history s ++ [t]) ->
            (Bank.saved b = s \/ exists b', Bank.saved b = Bank.saved b')
            /\ log_step s (Bank.saved b)).
  { intros b Hb. split; [right; now exists b | exact Hb]. }
  intros [s'' [number amount now | number amount now | a b amount now | now]
          | customer | id | id account_type initial kw_rate kw_limit uuid4
          | selected].
  - destruct (deposit_cases number amount now s) as [-> | (a & _ & _ & ->)];
      [exact Hsame | apply Hsaved; right; now eexists].
  - destruct (withdraw_cases number amount now s) as [-> | (a & _ & _ & ->)];
      [exact Hsame | apply Hsaved; right; now eexists].
  - destruct (transfer_funds_cases a b amount now s)
      as [-> | (fa & ta & _ & _ & _ & ->)];
      [exact Hsame | apply Hsaved; right; now eexists].
  - apply Hsaved. right. now eexists.
  - destruct (add_customer_cases customer s) as [-> | ->];
      [exact Hsame | apply Hsaved; now left].
  - destruct (remove_customer_cases id s) as [-> | ->];
      [exact Hsame | apply Hsaved; now left].
  - destruct (create_account_cases id account_type initial kw_rate kw_limit
                uuid4 s) as [-> | (customer & account & ->)];
      [exact Hsame | apply Hsaved; now left].
  - destruct (delete_account_cases selected s) as [-> | (c & n & ->)];
      [exact Hsame | apply Hsaved; now left].
Qed.

(** X11. Files that hold what [_save_data] writes from the bank in memory still do
    after any call, accepted or refused: no call changes the bank in memory
    without saving it. *)
Theorem committed_is_kept (s s' : State) :
  committed s -> step s s' -> committed s'.
Proof.
  intros Hs Hstep.
  destruct (step_saved_or_same s s' Hstep) as [[-> | [b ->]] _];
    [exact Hs | reflexivity].
Qed.

Lemma committed_is_kept_witness :
  committed logged_state.
Proof.
  exact (committed_is_kept opened_state logged_state eq_refl
           (step_transaction _ _
              (tx_deposit opened_state "0a1b2c3d" 100 "2024-01-01T00:00:00"))).
Defined.

(** X12. A call appends at most one record to the log and leaves the records
    already there. *)
Theorem step_logs_at_most_one (s s' : State) :
  step s s' -> log_step s s'.
Proof. intros Hstep. now destruct (step_saved_or_same s s' Hstep). Qed.

Lemma step_logs_at_most_one_witness :
  log_step opened_state logged_state.
Proof.
  exact (step_logs_at_most_one opened_state logged_state
           (step_transaction _ _
              (tx_deposit opened_state "0a1b2c3d" 100 "2024-01-01T00:00:00"))).
Defined.

(** X13. Through any sequence of calls the log only grows: the log at the start is
    a prefix of the log at the end. *)
Theorem log_only_grows (s s' : State) :
  rtc step s s' -> history s `prefix_of` history s'.
Proof.
  induction 1 as [s | s s1 s2 Hstep _ IH]; [reflexivity |].
  etransitivity; [| exact IH].
  destruct (step_saved_or_same s s1 Hstep) as [_ [-> | [t ->]]];
    [reflexivity | now apply prefix_app_r].
Qed.

Lemma log_only_grows_witness :
  history first_customer `prefix_of` history logged_state.
Proof.
  apply (log_only_grows first_customer logged_state).
  eapply rtc_l; [apply step_create_account |].
  apply rtc_once, step_transaction, tx_deposit.
Defined.

(** X14. The log records transactions only: adding or removing a customer,
    creating an account and deleting one leave it as it is, whether they
    succeed or not. *)
Theorem management_is_not_logged (s : State) :
  (forall customer, history (snd (Bank.add_customer customer s)) = history s)
  /\ (forall id, history (snd (Bank.remove_customer id s)) = history s)
  /\ (forall id account_type initial kw_rate kw_limit uuid4,
        history (snd (Bank.create_account id account_type initial kw_rate
                        kw_limit uuid4 s)) = history s)
  /\ (forall selected,
        history (AccountManagementView.delete_account selected s) = history s).
Proof.
  repeat split.
  - intros customer. now destruct (add_customer_cases customer s) as [-> | ->].
  - intros id. now destruct (remove_customer_cases id s) as [-> | ->].
  - intros id account_type initial kw_rate kw_limit uuid4.
    now destruct (create_account_cases id account_type initial kw_rate kw_limit
                    uuid4 s) as [-> | (customer & account & ->)].
  - intros selected.
    now destruct (delete_account_cases selected s) as [-> | (c & n & ->)].
Qed.

(** ** More facts of binary64 arithmetic *)

Section MoreFloatFacts.

Lemma Prim2SF_nan : Prim2SF nan = S754_nan.
Proof. reflexivity. Qed.

Lemma sub_nan (x : float) : (x - nan)%float = nan.
Proof.
  apply Prim2SF_inj. rewrite sub_spec, Prim2SF_nan.
  now destruct (Prim2SF x).
Qed.

Lemma add_nan (x : float) : (x + nan)%float = nan.
Proof.
  apply Prim2SF_inj. rewrite add_spec, Prim2SF_nan.
  now destruct (Prim2SF x).
Qed.

Lemma ltb_nan_r (x : float) : PrimFloat.ltb x nan = false.
Proof. rewrite ltb_spec, Prim2SF_nan. now destruct (Prim2SF x). Qed.

Lemma ltb_nan_l (x : float) : PrimFloat.ltb nan x = false.
Proof. rewrite ltb_spec, Prim2SF_nan. now destruct (Prim2SF x). Qed.

(** [x <= 0] false excludes [x < 0]. *)
Lemma not_le0_not_negative (x : float) :
  PrimFloat.leb x 0 = false -> PrimFloat.ltb x 0 = false.
Proof.
  rewrite leb_spec, ltb_spec. unfold SFleb, SFltb.
  now destruct (SFcompare (Prim2SF x) (Prim2SF 0)) as [[ | | ] | ].
Qed.

(** The numbers that are not below zero, by their representation: the zeros,
    the positive numbers, plus infinity and NaN. *)
Lemma not_negative_repr (x : float) :
  PrimFloat.ltb x 0 = false <->
  match Prim2SF x with
  | S754_zero _ | S754_nan => True
  | S754_infinity s | S754_finite s _ _ => s = false
  end.
Proof.
  rewrite ltb_spec, Prim2SF_zero.
  destruct (Prim2SF x) as [s | s | | s m e]; try destruct s; cbv;
    intuition congruence.
Qed.

Lemma binary_round_aux_sign mx ex lx :
  match binary_round_aux prec emax false mx ex lx with
  | S754_zero _ | S754_nan => True
  | S754_infinity s | S754_finite s _ _ => s = false
  end.
Proof.
  unfold binary_round_aux.
  destruct (shr_fexp prec emax mx ex lx) as [mrs' e'].
  destruct (shr_fexp prec emax _ e' loc_Exact) as [mrs'' e''].
  destruct (shr_m mrs''); trivial.
  now destruct (e'' <=? emax - prec)%Z.
Qed.

(** Sums and products of numbers that are not below zero are not below
    zero. *)
Lemma add_not_negative (x y : float) :
  PrimFloat.ltb x 0 = false -> PrimFloat.ltb y 0 = false ->
  PrimFloat.ltb (x + y) 0 = false.
Proof.
  rewrite !not_negative_repr, add_spec.
  destruct (Prim2SF x) as [sx | sx | | sx mx ex],
           (Prim2SF y) as [sy | sy | | sy my ey];
    intros Hx Hy; subst; try destruct sx; try destruct sy; simpl; trivial.
  unfold SF64add, SFadd, cond_Zopp, binary_normalize, binary_round. simpl.
  destruct (shl_align _ _ _). apply binary_round_aux_sign.
Qed.

Lemma mul_not_negative (x y : float) :
  PrimFloat.ltb x 0 = false -> PrimFloat.ltb y 0 = false ->
  PrimFloat.ltb (x * y) 0 = false.
Proof.
  rewrite !not_negative_repr, mul_spec.
  destruct (Prim2SF x) as [sx | sx | | sx mx ex],
           (Prim2SF y) as [sy | sy | | sy my ey];
    intros Hx Hy; subst; try destruct sx; try destruct sy; simpl; trivial.
  apply binary_round_aux_sign.
Qed.

End MoreFloatFacts.

(** ** Transfers, withdrawals and deposits together *)

Lemma withdraw_accepted_state (number : string) (amount : float) (now : string)
    (s : State) (a : Account) :
  _accounts (bank s) !! number = Some a ->
  fst (Account.withdraw amount a) = true ->
  Bank.withdraw number amount now s
    = (true,
       Bank.saved
         (mkBank (_customers (bank s))
            (<[number := set_balance (balance a - amount)%float a]>
               (_accounts (bank s)))
            (_transaction_history (bank s) ++ [Tx_withdraw number amount now]))).
Proof.
  intros Ha Hw. unfold Bank.withdraw. rewrite Ha.
  rewrite (on_account_some number _ _ a Ha), Hw.
  now destruct (withdraw_accepted_above_floor amount a Hw) as [-> _].
Qed.

Lemma deposit_accepted_state (number : string) (amount : float) (now : string)
    (s : State) (a : Account) :
  _accounts (bank s) !! number = Some a ->
  Amount.le0 amount = false ->
  Bank.deposit number amount now s
    = (true,
       Bank.saved
         (mkBank (_customers (bank s))
            (<[number := set_balance (balance a + amount)%float a]>
               (_accounts (bank s)))
            (_transaction_history (bank s) ++ [Tx_deposit number amount now]))).
Proof.
  intros Ha Hle. unfold Bank.deposit. rewrite Ha.
  rewrite (on_account_some number _ _ a Ha).
  now rewrite deposit_accepted by exact Hle.
Qed.

Lemma transfer_funds_accepted (a b : string) (amt : float) (now : string)
    (s : State) (fa ta : Account) :
  _accounts (bank s) !! a = Some fa ->
  _accounts (bank s) !! b = Some ta ->
  fst (Account.withdraw amt fa) = true ->
  Bank.transfer_funds a b amt now s = (true, transferred a b amt now fa ta s).
Proof.
  intros Ha Hb Hw. pose proof (withdraw_accepted_positive amt fa Hw) as Hle.
  unfold Bank.transfer_funds. rewrite Ha, Hb, Hle.
  rewrite (on_account_some a _ _ fa Ha), Hw. simpl.
  destruct (withdraw_accepted_above_floor amt fa Hw) as [-> _].
  set (debited := set_balance (balance fa - amt)%float fa).
  assert (Hto : _accounts (Bank.set_accounts
                             (<[a := debited]> (_accounts (bank s))) (bank s))
                  !! b = Some (credited_object a b debited ta)).
  { simpl. unfold credited_object. case_bool_decide as Hab.
    - subst b. apply lookup_insert_eq.
    - now rewrite lookup_insert_ne. }
  rewrite (on_account_some b _ _ _ Hto), deposit_accepted by exact Hle.
  reflexivity.
Qed.

(** X15. An accepted transfer leaves the accounts as a withdrawal from the first
    account followed by a deposit on the second do, both of which are then
    accepted, also when the two accounts are one; the log gets one transfer
    record where the two calls leave a withdrawal and a deposit record. *)
Theorem transfer_as_withdraw_then_deposit (a b : string) (amt : float)
    (now t1 t2 : string) (s : State) :
  fst (Bank.transfer_funds a b amt now s) = true ->
  let s' := snd (Bank.transfer_funds a b amt now s) in
  let '(withdrawn, s1) := Bank.withdraw a amt t1 s in
  let '(deposited, s2) := Bank.deposit b amt t2 s1 in
  withdrawn = true /\ deposited = true
  /\ _accounts (bank s2) = _accounts (bank s')
  /\ _customers (bank s2) = _customers (bank s')
  /\ history s' = history s ++ [Tx_transfer a b amt now]
  /\ history s2 = history s ++ [Tx_withdraw a amt t1; Tx_deposit b amt t2].
Proof.
  intros Hok.
  destruct (transfer_funds_cases a b amt now s)
    as [Hfail | (fa & ta & Ha & Hb & Hw & Heq)];
    [rewrite Hfail in Hok; discriminate |].
  rewrite Heq. simpl.
  rewrite (withdraw_accepted_state a amt t1 s fa Ha Hw).
  set (debited := set_balance (balance fa - amt)%float fa).
  erewrite deposit_accepted_state;
    [| simpl; instantiate (1 := credited_object a b debited ta);
       unfold credited_object; case_bool_decide as Hab;
       [subst b; apply lookup_insert_eq | now rewrite lookup_insert_ne]
     | exact (withdraw_accepted_positive amt fa Hw)].
  simpl. repeat split. unfold history. simpl. now rewrite <- app_assoc.
Qed.

(** 30 moved from Alice's account of 100 to Bob's, and the same as two
    calls. *)
Lemma transfer_as_withdraw_then_deposit_witness :
  let s' := snd (Bank.transfer_funds "0a1b2c3d" "feedc0de" 30 "t" two_accounts) in
  let '(withdrawn, s1) := Bank.withdraw "0a1b2c3d" 30 "t1" two_accounts in
  let '(deposited, s2) := Bank.deposit "feedc0de" 30 "t2" s1 in
  withdrawn = true /\ deposited = true
  /\ _accounts (bank s2) = _accounts (bank s')
  /\ _customers (bank s2) = _customers (bank s')
  /\ history s' = history two_accounts
                    ++ [Tx_transfer "0a1b2c3d" "feedc0de" 30 "t"]
  /\ history s2 = history two_accounts
                    ++ [Tx_withdraw "0a1b2c3d" 30 "t1";
                        Tx_deposit "feedc0de" 30 "t2"].
Proof.
  exact (transfer_as_withdraw_then_deposit "0a1b2c3d" "feedc0de" 30 "t" "t1"
           "t2" two_accounts eq_refl).
Defined.

(** ** An amount that is not a number *)

Lemma withdraw_accepts_nan (a : Account) :
  fst (Account.withdraw nan a) = true.
Proof.
  destruct a as [n h b r | n h b l]; simpl; unfold Amount.gt, Amount.lt.
  - now rewrite ltb_nan_r.
  - now rewrite sub_nan, ltb_nan_l.
Qed.

(** X16. The tests [amount <= 0], [amount > balance] and
    [balance - amount < -overdraft_limit] are all false on NaN: a transfer of
    NaN between any two existing accounts, of either kind and whatever they
    hold, is accepted, logged and saved, and leaves NaN as the balance of
    both. *)
Theorem transfer_funds_accepts_nan (a b : string) (now : string) (s : State) :
  is_Some (_accounts (bank s) !! a) ->
  is_Some (_accounts (bank s) !! b) ->
  let '(ok, s') := Bank.transfer_funds a b nan now s in
  ok = true
  /\ balance_of s' a = Some nan
  /\ balance_of s' b = Some nan
  /\ history s' = history s ++ [Tx_transfer a b nan now]
  /\ committed s'.
Proof.
  intros [fa Ha] [ta Hb].
  rewrite (transfer_funds_accepted a b nan now s fa ta Ha Hb
             (withdraw_accepts_nan fa)).
  unfold transferred, balance_of. simpl.
  split; [reflexivity |]. rewrite lookup_insert_eq. simpl.
  rewrite balance_set_balance, add_nan.
  split; [| now repeat split].
  destruct (decide (b = a)) as [-> | Hne].
  - rewrite lookup_insert_eq. simpl. now rewrite balance_set_balance.
  - rewrite lookup_insert_ne, lookup_insert_eq by exact Hne. simpl.
    now rewrite balance_set_balance, sub_nan.
Qed.

Lemma transfer_funds_accepts_nan_witness :
  let '(ok, s') := Bank.transfer_funds "0a1b2c3d" "feedc0de" nan "t" two_accounts in
  ok = true
  /\ balance_of s' "0a1b2c3d" = Some nan
  /\ balance_of s' "feedc0de" = Some nan
  /\ history s' = history two_accounts
                    ++ [Tx_transfer "0a1b2c3d" "feedc0de" nan "t"]
  /\ committed s'.
Proof.
  refine (transfer_funds_accepts_nan "0a1b2c3d" "feedc0de" "t" two_accounts
            _ _); vm_compute; eauto.
Defined.

(** ** Savings accounts stay at or above zero *)

Lemma deposit_keeps_solvent (amount : float) (a : Account) :
  solvent a -> solvent (snd (Account.deposit amount a)).
Proof.
  destruct a as [n h b r | n h b l]; simpl;
    destruct (Amount.le0 amount) eqn:Hle; simpl; auto.
  intros Hb. apply add_not_negative; [exact Hb |].
  now apply not_le0_not_negative.
Qed.

Lemma withdraw_keeps_solvent (amount : float) (a : Account) :
  solvent a -> solvent (snd (Account.withdraw amount a)).
Proof.
  intros Ha. pose proof (withdraw_keeps_floor amount a) as Hfloor.
  destruct (withdraw_balance_only amount a) as [x Hx]. rewrite Hx in *.
  destruct a as [n h b r | n h b l]; [| exact I].
  exact (Hfloor Ha).
Qed.

Lemma apply_interest_keeps_solvent (a : Account) :
  parameter_ok a -> solvent a -> solvent (Account.apply_interest a).
Proof.
  destruct a as [n h b r | n h b l]; [| auto]. simpl. intros Hr Hb.
  apply add_not_negative; [exact Hb |].
  apply mul_not_negative; [exact Hb |]. now apply leb_not_ltb.
Qed.

Lemma on_account_keeps_solvent (k : string) (m : Account -> bool * Account)
    (b : Bank) :
  (forall a, solvent a -> solvent (snd (m a))) ->
  all_solvent b -> all_solvent (snd (Bank.on_account k m b)).
Proof.
  intros Hm Hb. unfold Bank.on_account.
  destruct (_accounts b !! k) as [a |] eqn:Hk; [| exact Hb].
  pose proof (Hm a (Hb k a Hk)) as Ha. destruct (m a) as [r a']. simpl in *.
  unfold all_solvent. simpl.
  intros k' x. destruct (decide (k = k')) as [<- | Hne].
  - rewrite lookup_insert_eq. now intros [= <-].
  - rewrite lookup_insert_ne by exact Hne. apply Hb.
Qed.

(** X17. No transaction brings a savings account below zero: in a reachable state
    where the balance of every savings account is not below zero, it is not
    after a deposit, a withdrawal, a transfer or the application of interest,
    whatever the amounts. *)
Theorem transactions_keep_savings_solvent (s s' : State) :
  reachable s ->
  all_solvent (bank s) ->
  transaction s s' ->
  all_solvent (bank s').
Proof.
  intros Hreach Hs [number amount now | number amount now | a b amount now | now].
  - unfold Bank.deposit.
    destruct (_accounts (bank s) !! number); [| exact Hs].
    pose proof (on_account_keeps_solvent number _ _
                  (deposit_keeps_solvent amount) Hs) as H1.
    destruct (Bank.on_account number _ (bank s)) as [ok b1].
    destruct ok; exact H1.
  - unfold Bank.withdraw.
    destruct (_accounts (bank s) !! number); [| exact Hs].
    pose proof (on_account_keeps_solvent number _ _
                  (withdraw_keeps_solvent amount) Hs) as H1.
    destruct (Bank.on_account number _ (bank s)) as [ok b1].
    destruct ok; exact H1.
  - unfold Bank.transfer_funds.
    destruct (_accounts (bank s) !! a); [| exact Hs].
    destruct (_accounts (bank s) !! b); [| exact Hs].
    destruct (Amount.le0 amount); [exact Hs |].
    pose proof (on_account_keeps_solvent a _ _
                  (withdraw_keeps_solvent amount) Hs) as H1.
    destruct (Bank.on_account a _ (bank s)) as [withdrawn b1].
    destruct withdrawn; [| exact H1]. simpl in *.
    pose proof (on_account_keeps_solvent b _ _
                  (deposit_keeps_solvent amount) H1) as H2.
    destruct (Bank.on_account b _ b1) as [deposited b2].
    destruct deposited; [exact H2 |]. simpl in *.
    pose proof (on_account_keeps_solvent a _ _
                  (deposit_keeps_solvent amount) H2) as H3.
    destruct (Bank.on_account a _ b2) as [r b3]. exact H3.
  - destruct (reachable_well_formed s Hreach) as [_ Hpar].
    unfold Bank.apply_all_interest, Bank.saved, Bank.append_history,
      Bank.set_accounts.
    unfold all_solvent.
    cbn [bank _customers _accounts _transaction_history].
    intros k x. rewrite lookup_fmap.
    destruct (_accounts (bank s) !! k) as [a0 |] eqn:Hk; [| discriminate].
    simpl. intros [= <-]. destruct (Hpar k a0 Hk) as [_ Hp].
    destruct (is_savings a0) eqn:Hsav; [| exact (Hs k a0 Hk)].
    apply apply_interest_keeps_solvent; [exact Hp | exact (Hs k a0 Hk)].
Qed.

Lemma opened_state_reachable : reachable opened_state.
Proof. do 2 constructor. apply reach_init. Qed.

Lemma opened_state_solvent : all_solvent (bank opened_state).
Proof.
  replace (bank opened_state)
    with (mkBank {[ "123456789" := alice ]}
            {[ "0a1b2c3d" := SavingsAccount "0a1b2c3d" "123456789" 0 0.1 ]} [])
    by (vm_compute; reflexivity).
  intros k a Hk. simpl in Hk.
  apply lookup_singleton_Some in Hk as [_ <-]. reflexivity.
Qed.

(** The deposit of the first run. *)
Lemma transactions_keep_savings_solvent_witness :
  all_solvent (bank logged_state).
Proof.
  exact (transactions_keep_savings_solvent opened_state logged_state
           opened_state_reachable opened_state_solvent
           (tx_deposit opened_state "0a1b2c3d" 100 "2024-01-01T00:00:00")).
Defined.

(** ** Deleting an account *)

(** [delete_account] does nothing without a selection or when the selected
    number has no account.  Otherwise the account is taken out of the account
    map, whatever its balance, the number is taken out of the list of the
    customer that holds the account when that customer exists, no other
    customer and no other account is touched, and the bank is saved. *)
Theorem delete_account_outcome (acc_no : string) (rest : list string)
    (s : State) :
  let s' := AccountManagementView.delete_account (acc_no :: rest) s in
  AccountManagementView.delete_account [] s = s
  /\ (_accounts (bank s) !! acc_no = None -> s' = s)
  /\ (forall acc,
        _accounts (bank s) !! acc_no = Some acc ->
        _accounts (bank s') = delete acc_no (_accounts (bank s))
        /\ _customers (bank s') !! account_holder_id acc
           = remove_account_number acc_no
               <$> _customers (bank s) !! account_holder_id acc
        /\ (forall k, k <> account_holder_id acc ->
              _customers (bank s') !! k = _customers (bank s) !! k)
        /\ committed s').
Proof.
  simpl. split; [reflexivity |]. split; [now intros -> |].
  intros acc ->. simpl. split; [reflexivity |].
  destruct (_customers (bank s) !! account_holder_id acc) as [cust |] eqn:Hc;
    simpl.
  - rewrite lookup_insert_eq. repeat split.
    intros k Hk. now rewrite lookup_insert_ne by congruence.
  - rewrite Hc. now repeat split.
Qed.

Lemma construct_holder (account_type number id : string) (initial : float)
    (kw_rate kw_limit : option float) (account : Account) :
  Bank.construct account_type number id initial kw_rate kw_limit = Some account ->
  account_holder_id account = id.
Proof.
  unfold Bank.construct. repeat case_bool_decide; now intros [= <-].
Qed.

(** X18. Creating an account under a number that is not taken and deleting it
    gives back the customers, the accounts and the log of a reachable state. *)
Theorem create_then_delete_account (id account_type : string) (initial : float)
    (kw_rate kw_limit : option float) (uuid4 : string) (s : State)
    (account : Account) :
  reachable s ->
  _accounts (bank s) !! substring 0 8 uuid4 = None ->
  fst (Bank.create_account id account_type initial kw_rate kw_limit uuid4 s)
    = Some account ->
  let s2 :=
    AccountManagementView.delete_account [substring 0 8 uuid4]
      (snd (Bank.create_account id account_type initial kw_rate kw_limit
              uuid4 s)) in
  _customers (bank s2) = _customers (bank s)
  /\ _accounts (bank s2) = _accounts (bank s)
  /\ history s2 = history s
  /\ committed s2.
Proof.
  intros Hreach Hfresh Hok.
  destruct (create_account_inv _ _ _ _ _ _ _ _ Hok) as (customer & Hc & Hk & _).
  rewrite (create_account_built _ _ _ _ _ _ _ _ _ Hc Hk).
  pose proof (construct_holder _ _ _ _ _ _ _ Hk) as Hholder.
  set (number := substring 0 8 uuid4) in *.
  destruct (reachable_well_formed s Hreach) as [Hcus _].
  destruct (Hcus id customer Hc) as (_ & _ & Hall).
  assert (Hnot : number ∉ account_numbers customer).
  { intros Hin. rewrite Forall_forall in Hall.
    destruct (Hall number Hin) as [x Hx]. congruence. }
  pose proof (remove_account_number_absent_after_add number customer Hnot)
    as Hround.
  unfold AccountManagementView.delete_account, with_new_account. simpl.
  rewrite lookup_insert_eq, Hholder, lookup_insert_eq. simpl.
  rewrite Hround, insert_insert_eq, (insert_id _ _ _ Hc).
  rewrite delete_insert_eq, (delete_id _ _ Hfresh).
  now repeat split.
Qed.

Lemma first_customer_reachable : reachable first_customer.
Proof. constructor. apply reach_init. Qed.

(** An account opened for the customer of the first run and deleted again. *)
Lemma create_then_delete_account_witness :
  let s2 :=
    AccountManagementView.delete_account [substring 0 8 "c0ffee11-0000-4000-8000-000000000000"]
      (snd (Bank.create_account "123456789" "savings" 1 None None
              "c0ffee11-0000-4000-8000-000000000000" first_customer)) in
  _customers (bank s2) = _customers (bank first_customer)
  /\ _accounts (bank s2) = _accounts (bank first_customer)
  /\ history s2 = history first_customer
  /\ committed s2.
Proof.
  exact (create_then_delete_account "123456789" "savings" 1 None None
           "c0ffee11-0000-4000-8000-000000000000" first_customer
           (SavingsAccount "c0ffee11" "123456789" 1 0.01)
           first_customer_reachable eq_refl eq_refl).
Defined.

(** X19. A customer whose only account is deleted can be removed: with one number
    in its list, naming an account that it holds, [remove_customer] is
    refused before [delete_account] and accepted after it. *)
Theorem delete_last_account_then_remove_customer (id n : string) (s : State)
    (c : Customer) (acc : Account) :
  _customers (bank s) !! id = Some c ->
  account_numbers c = [n] ->
  _accounts (bank s) !! n = Some acc ->
  account_holder_id acc = id ->
  let s1 := AccountManagementView.delete_account [n] s in
  fst (Bank.remove_customer id s) = false
  /\ fst (Bank.remove_customer id s1) = true
  /\ _customers (bank (snd (Bank.remove_customer id s1)))
     = delete id (_customers (bank s))
  /\ _accounts (bank (snd (Bank.remove_customer id s1)))
     = delete n (_accounts (bank s)).
Proof.
  intros Hc Hl Ha Hh. simpl. split.
  - unfold Bank.remove_customer. now rewrite Hc, Hl.
  - unfold AccountManagementView.delete_account. rewrite Ha, Hh, Hc.
    unfold Bank.remove_customer. simpl. rewrite lookup_insert_eq.
    unfold remove_account_number. rewrite Hl.
    rewrite bool_decide_eq_true_2 by (now apply list_elem_of_singleton).
    simpl. rewrite bool_decide_eq_true_2 by reflexivity. simpl.
    repeat split. now rewrite delete_insert_eq.
Qed.

(** The customer and the account of the first run. *)
Lemma delete_last_account_then_remove_customer_witness :
  let s1 := AccountManagementView.delete_account ["0a1b2c3d"] logged_state in
  fst (Bank.remove_customer "123456789" logged_state) = false
  /\ fst (Bank.remove_customer "123456789" s1) = true
  /\ _customers (bank (snd (Bank.remove_customer "123456789" s1)))
     = delete "123456789" (_customers (bank logged_state))
  /\ _accounts (bank (snd (Bank.remove_customer "123456789" s1)))
     = delete "0a1b2c3d" (_accounts (bank logged_state)).
Proof.
  exact (delete_last_account_then_remove_customer "123456789" "0a1b2c3d"
           logged_state alice sample_savings eq_refl eq_refl eq_refl eq_refl).
Defined.
